(** * GitLab Extended node: the request builder of the merge-request resource

    A shallow embedding of [handleMergeRequest]
    (nodes/GitlabExtended/resources/mergeRequest.ts) and of the item loop of
    [GitlabExtended.execute] (nodes/GitlabExtended/GitlabExtended.node.ts),
    with the properties of the requests they build.

    Conventions of the embedding.
    - A JSON object ([IDataObject]) is a finite map from keys to [JsValue].
    - Node parameters are typed as the TypeScript casts at each read and the
      [type:] entries of the node description declare them: strings (and
      option selectors), numbers that may be [null], booleans and objects.
      Numbers are integers ([Z]); line numbers and ids are.
    - A handler either throws or reaches its single call of
      [gitlabApiRequest] / [gitlabApiRequestAllItems]; the embedding returns
      the error, or the arguments of that call as a [Request]. The two
      request functions (GenericFunctions.ts) are not among the sources. *)

From stdpp Require Import gmap strings pretty.

#[local] Set Warnings "-register-all,-clear-no-such-hyp".
#[local] Open Scope Z_scope.

(** ** JavaScript values and objects *)

Inductive JsValue : Type :=
| JNull
| JBool (b : bool)
| JNum (n : Z)
| JStr (s : string)
| JArr (l : list JsValue)
| JObj (o : gmap string JsValue).

Abbreviation IDataObject := (gmap string JsValue).

(** The double quote character, for messages that quote a parameter name. *)
Definition dquote : string :=
  Eval cbv in String (Ascii.ascii_of_nat 34) EmptyString.

(** [s !== ''] and the truthiness of a string are the same test. *)
Definition nonEmpty (s : string) : bool := negb (String.eqb s "").

(** [if (n)] for a [number | null]: zero and null are falsy. *)
Definition truthyNumber (n : option Z) : bool :=
  match n with
  | Some k => negb (k =? 0)
  | None => false
  end.

(** Template interpolation of a [number | null]. *)
Definition numberToString (n : option Z) : string :=
  match n with
  | Some k => pretty k
  | None => "null"
  end.

(** A [number | null] stored into an object. *)
Definition jsNumber (n : option Z) : JsValue :=
  match n with
  | Some k => JNum k
  | None => JNull
  end.

(** [if (cond) obj[key] = value;] *)
Definition setIf (cond : bool) (key : string) (value : JsValue)
    (obj : IDataObject) : IDataObject :=
  if cond then <[key := value]> obj else obj.


(** ** Errors and results *)

Inductive JsError : Type :=
| NodeOperationError (message : string)
| GenericError (message : string).

Definition errorMessage (e : JsError) : string :=
  match e with
  | NodeOperationError m => m
  | GenericError m => m
  end.

Inductive Result (A : Type) : Type :=
| Ok (a : A)
| Throw (e : JsError).

Arguments Ok {A} a.
Arguments Throw {A} e.

#[export] Instance Result_ret : MRet Result := @Ok.
#[export] Instance Result_bind : MBind Result :=
  λ A B f m, match m with Ok a => f a | Throw e => Throw e end.

(** ** Node parameters *)

Record Params : Type := {
  stringParams : gmap string string;
  numberParams : gmap string (option Z);
  booleanParams : gmap string bool;
  objectParams : gmap string IDataObject;
}.

(** [this.getNodeParameter(name, itemIndex, defaultValue)], as the tests'
    context resolves it: the value when the parameter is set, else the
    default when one is given, else an error. [table] is the part of the
    parameters that has the type of the read. *)
Definition getNodeParameter {V : Type} (table : gmap string V)
    (name : string) (defaultValue : option V) : Result V :=
  match table !! name with
  | Some v => Ok v
  | None =>
      match defaultValue with
      | Some d => Ok d
      | None => Throw (GenericError ("Could not get parameter " +:+ name))
      end
  end.

(** Modelled from the spec: validators.requirePositive is not among the
    sources. The spec has it fail with [InvalidArgument] when the value is
    not a positive integer; the tests give the message. *)
Definition requirePositive (value : option Z) (name : string) : Result unit :=
  match value with
  | Some k =>
      if 0 <? k then Ok tt
      else Throw (NodeOperationError (name +:+ " must be a positive number"))
  | None => Throw (NodeOperationError (name +:+ " must be a positive number"))
  end.

(** ** Requests *)

(** The arguments of the call that ends a handler: [gitlabApiRequestAllItems]
    when [returnAll] is set, [gitlabApiRequest] otherwise. *)
Record Request : Type := {
  requestMethod : string;
  endpoint : string;
  body : IDataObject;
  qs : IDataObject;
  returnAll : bool;
}.

(** What processing one item does: the requests issued, in order, and the
    error thrown, if any. *)
Definition ItemOutcome : Type := list Request * option JsError.

Definition issue (built : Result Request) : ItemOutcome :=
  match built with
  | Ok r => ([r], None)
  | Throw e => ([], Some e)
  end.

(** ** Collaborators outside the sources

    GenericFunctions.ts, the branch, pipeline and file handlers and the
    JavaScript built-ins are not among the sources; the builders are
    parametrised by them. *)
Class Host : Type := {
  (** Modelled from the spec: the Base Resolver, [resolveCredential] then
      [assertValidProjectCredentials] then [buildProjectBase]; it returns a
      path prefix such as /projects/42, or throws. *)
  resolveBase : Params → Result string;
  (** [addOptionalStringParam.call(this, body, param, key, itemIndex)] *)
  addOptionalStringParam :
    Params → IDataObject → string → string → Result IDataObject;
  handleBranch : Params → ItemOutcome;
  handlePipeline : Params → ItemOutcome;
  handleFile : Params → ItemOutcome;
  encodeURIComponent : string → string;
  (** [JSON.parse]; [None] when it throws. *)
  JSON_parse : string → option JsValue;
}.

#[local] Infix "===" := String.eqb (at level 70, no associativity).

Section Builders.
Context `{!Host}.

(** ** [handleMergeRequest], one definition per branch of its dispatch *)

(** mergeRequest.ts, lines 34-40. *)
Definition create (p : Params) (base : string) : Result Request :=
  source ← getNodeParameter (stringParams p) "source" None;
  target ← getNodeParameter (stringParams p) "target" None;
  title ← getNodeParameter (stringParams p) "title" None;
  let body :=
    <["title" := JStr title]>
      (<["target_branch" := JStr target]>
        (<["source_branch" := JStr source]> ∅)) in
  body ← addOptionalStringParam p body "description" "description";
  Ok {| requestMethod := "POST"; endpoint := base +:+ "/merge_requests";
        body := body; qs := ∅; returnAll := false |}.

(** Lines 41-45. *)
Definition get (p : Params) (base : string) : Result Request :=
  iid ← getNodeParameter (numberParams p) "mergeRequestIid" None;
  _ ← requirePositive iid "mergeRequestIid";
  Ok {| requestMethod := "GET";
        endpoint := base +:+ "/merge_requests/" +:+ numberToString iid;
        body := ∅; qs := ∅; returnAll := false |}.

(** Lines 46-50. *)
Definition getAll (p : Params) (base : string) : Result Request :=
  returnAll ← getNodeParameter (booleanParams p) "returnAll" None;
  qs ← (if negb returnAll
        then limit ← getNodeParameter (numberParams p) "limit" None;
             Ok (<["per_page" := jsNumber limit]> (∅ : IDataObject))
        else Ok ∅);
  Ok {| requestMethod := "GET"; endpoint := base +:+ "/merge_requests";
        body := ∅; qs := qs; returnAll := returnAll |}.

(** Lines 51-56. *)
Definition createNote (p : Params) (base : string) : Result Request :=
  note ← getNodeParameter (stringParams p) "body" None;
  iid ← getNodeParameter (numberParams p) "mergeRequestIid" None;
  _ ← requirePositive iid "mergeRequestIid";
  Ok {| requestMethod := "POST";
        endpoint :=
          base +:+ "/merge_requests/" +:+ numberToString iid +:+ "/notes";
        body := <["body" := JStr note]> ∅; qs := ∅; returnAll := false |}.

(** The position-related parameters of [postDiscussionNote], lines 69-104,
    under the names of the constants that hold them. *)
Record PositionFields : Type := {
  positionType : string;
  newPath : string;
  oldPath : string;
  newLine : option Z;
  baseSha : string;
  headSha : string;
  startSha : string;
  oldLine : option Z;
  lineRangeStartLineCode : string;
  lineRangeStartType : string;
  lineRangeStartOldLine : option Z;
  lineRangeStartNewLine : option Z;
  lineRangeEndLineCode : string;
  lineRangeEndType : string;
  lineRangeEndOldLine : option Z;
  lineRangeEndNewLine : option Z;
}.

(** Lines 106-107. *)
Definition hasPosition (f : PositionFields) : bool :=
  nonEmpty (newPath f) && nonEmpty (oldPath f) && nonEmpty (baseSha f) &&
  nonEmpty (headSha f) && nonEmpty (startSha f).

(** Lines 130-134. *)
Definition hasLineRange (f : PositionFields) : bool :=
  nonEmpty (lineRangeStartLineCode f) && nonEmpty (lineRangeStartType f) &&
  nonEmpty (lineRangeEndLineCode f) && nonEmpty (lineRangeEndType f).

(** [if (line !== null) obj[key] = line;] *)
Definition setLine (key : string) (line : option Z) (obj : IDataObject)
    : IDataObject :=
  match line with
  | Some k => <[key := JNum k]> obj
  | None => obj
  end.

(** Lines 136-157: the [line_range] object. *)
Definition buildLineRange (f : PositionFields) : IDataObject :=
  let start : IDataObject :=
    <["type" := JStr (lineRangeStartType f)]>
      (<["line_code" := JStr (lineRangeStartLineCode f)]> ∅) in
  let end_ : IDataObject :=
    <["type" := JStr (lineRangeEndType f)]>
      (<["line_code" := JStr (lineRangeEndLineCode f)]> ∅) in
  let start := setLine "old_line" (lineRangeStartOldLine f) start in
  let start := setLine "new_line" (lineRangeStartNewLine f) start in
  let end_ := setLine "old_line" (lineRangeEndOldLine f) end_ in
  let end_ := setLine "new_line" (lineRangeEndNewLine f) end_ in
  <["end" := JObj end_]> (<["start" := JObj start]> ∅).

(** The message of line 113. *)
Definition oldLineMessage : string :=
  "The " +:+ dquote +:+ "oldLine" +:+ dquote +:+
  " parameter must be a non-negative number.".

(** Lines 110-159: the [position] object, or the error of line 111. *)
Definition buildPosition (f : PositionFields) : Result IDataObject :=
  if match oldLine f with Some k => k <? 0 | None => false end
  then Throw (NodeOperationError oldLineMessage)
  else
    let position : IDataObject :=
      <["start_sha" := JStr (startSha f)]>
        (<["head_sha" := JStr (headSha f)]>
          (<["base_sha" := JStr (baseSha f)]>
            (<["old_path" := JStr (oldPath f)]>
              (<["new_path" := JStr (newPath f)]>
                (<["position_type" :=
                     JStr (if nonEmpty (positionType f)
                           then positionType f else "text")]> ∅))))) in
    let position := setLine "new_line" (newLine f) position in
    let position :=
      match oldLine f with
      | Some k => setIf (negb (k =? 0)) "old_line" (JNum k) position
      | None => position
      end in
    let position :=
      setIf (hasLineRange f) "line_range" (JObj (buildLineRange f))
        position in
    Ok position.

(** Lines 109-161: the body with its [position], when there is one. *)
Definition attachPosition (f : PositionFields) (body : IDataObject)
    : Result IDataObject :=
  if hasPosition f
  then position ← buildPosition f;
       Ok (<["position" := JObj position]> body)
  else Ok body.

(** Lines 163-174: the endpoint of a new discussion, or of a reply. *)
Definition discussionEndpoint (p : Params) (base : string) (iid : option Z)
    (newDiscussion : bool) : Result string :=
  if newDiscussion
  then Ok (base +:+ "/merge_requests/" +:+ numberToString iid +:+
           "/discussions")
  else
    discussionId ← getNodeParameter (stringParams p) "discussionId" None;
    if negb (nonEmpty discussionId)
    then Throw (NodeOperationError
           "Discussion ID must be provided when replying to a discussion.")
    else Ok (base +:+ "/merge_requests/" +:+ numberToString iid +:+
             "/discussions/" +:+ discussionId +:+ "/notes").

(** Lines 57-174. *)
Definition postDiscussionNote (p : Params) (base : string) : Result Request :=
  iid ← getNodeParameter (numberParams p) "mergeRequestIid" None;
  _ ← requirePositive iid "mergeRequestIid";
  newDiscussion ←
    getNodeParameter (booleanParams p) "startDiscussion" (Some false);
  note ← getNodeParameter (stringParams p) "body" None;
  let body : IDataObject := <["body" := JStr note]> ∅ in
  commitId ← getNodeParameter (stringParams p) "commitId" (Some "");
  createdAt ← getNodeParameter (stringParams p) "createdAt" (Some "");
  let body := setIf (nonEmpty commitId) "commit_id" (JStr commitId) body in
  let body := setIf (nonEmpty createdAt) "created_at" (JStr createdAt) body in
  positionType ← getNodeParameter (stringParams p) "positionType" (Some "");
  newPath ← getNodeParameter (stringParams p) "newPath" (Some "");
  oldPath ← getNodeParameter (stringParams p) "oldPath" (Some "");
  newLine ← getNodeParameter (numberParams p) "newLine" (Some None);
  baseSha ← getNodeParameter (stringParams p) "baseSha" (Some "");
  headSha ← getNodeParameter (stringParams p) "headSha" (Some "");
  startSha ← getNodeParameter (stringParams p) "startSha" (Some "");
  oldLine ← getNodeParameter (numberParams p) "oldLine" (Some None);
  lineRangeStartLineCode ←
    getNodeParameter (stringParams p) "lineRangeStartLineCode" (Some "");
  lineRangeStartType ←
    getNodeParameter (stringParams p) "lineRangeStartType" (Some "");
  lineRangeStartOldLine ←
    getNodeParameter (numberParams p) "lineRangeStartOldLine" (Some None);
  lineRangeStartNewLine ←
    getNodeParameter (numberParams p) "lineRangeStartNewLine" (Some None);
  lineRangeEndLineCode ←
    getNodeParameter (stringParams p) "lineRangeEndLineCode" (Some "");
  lineRangeEndType ←
    getNodeParameter (stringParams p) "lineRangeEndType" (Some "");
  lineRangeEndOldLine ←
    getNodeParameter (numberParams p) "lineRangeEndOldLine" (Some None);
  lineRangeEndNewLine ←
    getNodeParameter (numberParams p) "lineRangeEndNewLine" (Some None);
  body ←
    attachPosition
      {| positionType := positionType; newPath := newPath;
         oldPath := oldPath; newLine := newLine; baseSha := baseSha;
         headSha := headSha; startSha := startSha; oldLine := oldLine;
         lineRangeStartLineCode := lineRangeStartLineCode;
         lineRangeStartType := lineRangeStartType;
         lineRangeStartOldLine := lineRangeStartOldLine;
         lineRangeStartNewLine := lineRangeStartNewLine;
         lineRangeEndLineCode := lineRangeEndLineCode;
         lineRangeEndType := lineRangeEndType;
         lineRangeEndOldLine := lineRangeEndOldLine;
         lineRangeEndNewLine := lineRangeEndNewLine |}
      body;
  endpoint ← discussionEndpoint p base iid newDiscussion;
  Ok {| requestMethod := "POST"; endpoint := endpoint;
        body := body; qs := ∅; returnAll := false |}.

(** Lines 175-182. *)
Definition updateNote (p : Params) (base : string) : Result Request :=
  noteId ← getNodeParameter (numberParams p) "noteId" None;
  _ ← requirePositive noteId "noteId";
  note ← getNodeParameter (stringParams p) "body" None;
  iid ← getNodeParameter (numberParams p) "mergeRequestIid" None;
  _ ← requirePositive iid "mergeRequestIid";
  Ok {| requestMethod := "PUT";
        endpoint :=
          base +:+ "/merge_requests/" +:+ numberToString iid +:+
          "/notes/" +:+ numberToString noteId;
        body := <["body" := JStr note]> ∅; qs := ∅; returnAll := false |}.

(** Lines 183-202. *)
Definition updateDiscussionNote (p : Params) (base : string)
    : Result Request :=
  iid ← getNodeParameter (numberParams p) "mergeRequestIid" None;
  _ ← requirePositive iid "mergeRequestIid";
  discussionId ← getNodeParameter (stringParams p) "discussionId" None;
  noteId ← getNodeParameter (numberParams p) "noteId" None;
  _ ← requirePositive noteId "noteId";
  newBody ← getNodeParameter (stringParams p) "body" (Some "");
  resolvedChoice ← getNodeParameter (stringParams p) "resolved" (Some "none");
  let resolvedProvided := negb (resolvedChoice === "none") in
  let resolved :=
    if resolvedChoice === "true" then JBool true
    else if resolvedChoice === "false" then JBool false
    else JNull in
  if nonEmpty newBody && resolvedProvided
  then Throw (NodeOperationError "body and resolved are mutually exclusive")
  else
    let body : IDataObject :=
      if nonEmpty newBody then <["body" := JStr newBody]> ∅
      else if resolvedProvided then <["resolved" := resolved]> ∅
      else ∅ in
    Ok {| requestMethod := "PUT";
          endpoint :=
            base +:+ "/merge_requests/" +:+ numberToString iid +:+
            "/discussions/" +:+ discussionId +:+
            "/notes/" +:+ numberToString noteId;
          body := body; qs := ∅; returnAll := false |}.

(** Lines 203-211. *)
Definition getChanges (p : Params) (base : string) : Result Request :=
  iid ← getNodeParameter (numberParams p) "mergeRequestIid" None;
  _ ← requirePositive iid "mergeRequestIid";
  accessRawDiffs ←
    getNodeParameter (booleanParams p) "accessRawDiffs" (Some false);
  unidiff ← getNodeParameter (booleanParams p) "unidiff" (Some false);
  let qs := setIf accessRawDiffs "access_raw_diffs" (JBool true) ∅ in
  let qs := setIf unidiff "unidiff" (JBool true) qs in
  Ok {| requestMethod := "GET";
        endpoint :=
          base +:+ "/merge_requests/" +:+ numberToString iid +:+ "/changes";
        body := ∅; qs := qs; returnAll := false |}.

(** Lines 212-218. *)
Definition getDiscussions (p : Params) (base : string) : Result Request :=
  iid ← getNodeParameter (numberParams p) "mergeRequestIid" None;
  _ ← requirePositive iid "mergeRequestIid";
  returnAll ← getNodeParameter (booleanParams p) "returnAll" None;
  qs ← (if negb returnAll
        then limit ← getNodeParameter (numberParams p) "limit" None;
             Ok (<["per_page" := jsNumber limit]> (∅ : IDataObject))
        else Ok ∅);
  Ok {| requestMethod := "GET";
        endpoint :=
          base +:+ "/merge_requests/" +:+ numberToString iid +:+
          "/discussions";
        body := ∅; qs := qs; returnAll := returnAll |}.

(** Lines 219-224 ([getDiscussion], method GET) and 235-240
    ([deleteDiscussion], method DELETE). *)
Definition discussionRequest (method : string) (p : Params) (base : string)
    : Result Request :=
  iid ← getNodeParameter (numberParams p) "mergeRequestIid" None;
  _ ← requirePositive iid "mergeRequestIid";
  discussionId ← getNodeParameter (stringParams p) "discussionId" None;
  Ok {| requestMethod := method;
        endpoint :=
          base +:+ "/merge_requests/" +:+ numberToString iid +:+
          "/discussions/" +:+ discussionId;
        body := ∅; qs := ∅; returnAll := false |}.

(** Lines 225-234 ([updateDiscussion]) and 263-272 ([resolveDiscussion]),
    which are the same code. *)
Definition updateDiscussion (p : Params) (base : string) : Result Request :=
  iid ← getNodeParameter (numberParams p) "mergeRequestIid" None;
  _ ← requirePositive iid "mergeRequestIid";
  discussionId ← getNodeParameter (stringParams p) "discussionId" None;
  resolveChoice ← getNodeParameter (stringParams p) "resolved" (Some "none");
  let body :=
    setIf (negb (resolveChoice === "none"))
      "resolved" (JBool (resolveChoice === "true")) ∅ in
  Ok {| requestMethod := "PUT";
        endpoint :=
          base +:+ "/merge_requests/" +:+ numberToString iid +:+
          "/discussions/" +:+ discussionId;
        body := body; qs := ∅; returnAll := false |}.

(** Lines 241-247 ([getNote], method GET) and 248-254 ([deleteNote], method
    DELETE). *)
Definition noteRequest (method : string) (p : Params) (base : string)
    : Result Request :=
  iid ← getNodeParameter (numberParams p) "mergeRequestIid" None;
  _ ← requirePositive iid "mergeRequestIid";
  noteId ← getNodeParameter (numberParams p) "noteId" None;
  _ ← requirePositive noteId "noteId";
  Ok {| requestMethod := method;
        endpoint :=
          base +:+ "/merge_requests/" +:+ numberToString iid +:+
          "/notes/" +:+ numberToString noteId;
        body := ∅; qs := ∅; returnAll := false |}.

(** Lines 255-262. *)
Definition deleteDiscussionNote (p : Params) (base : string)
    : Result Request :=
  iid ← getNodeParameter (numberParams p) "mergeRequestIid" None;
  _ ← requirePositive iid "mergeRequestIid";
  discussionId ← getNodeParameter (stringParams p) "discussionId" None;
  noteId ← getNodeParameter (numberParams p) "noteId" None;
  _ ← requirePositive noteId "noteId";
  Ok {| requestMethod := "DELETE";
        endpoint :=
          base +:+ "/merge_requests/" +:+ numberToString iid +:+
          "/discussions/" +:+ discussionId +:+
          "/notes/" +:+ numberToString noteId;
        body := ∅; qs := ∅; returnAll := false |}.

(** Lines 273-281. *)
Definition merge (p : Params) (base : string) : Result Request :=
  iid ← getNodeParameter (numberParams p) "mergeRequestIid" None;
  _ ← requirePositive iid "mergeRequestIid";
  message ← getNodeParameter (stringParams p) "mergeCommitMessage" (Some "");
  strategy ← getNodeParameter (stringParams p) "mergeStrategy" (Some "merge");
  let body :=
    setIf (nonEmpty message) "merge_commit_message" (JStr message) ∅ in
  let body := setIf (strategy === "squash") "squash" (JBool true) body in
  Ok {| requestMethod := "PUT";
        endpoint :=
          base +:+ "/merge_requests/" +:+ numberToString iid +:+ "/merge";
        body := body; qs := ∅; returnAll := false |}.

(** Lines 282-288. *)
Definition rebase (p : Params) (base : string) : Result Request :=
  iid ← getNodeParameter (numberParams p) "mergeRequestIid" None;
  _ ← requirePositive iid "mergeRequestIid";
  skipCi ← getNodeParameter (booleanParams p) "skipCi" (Some false);
  let qs := setIf skipCi "skip_ci" (JBool true) ∅ in
  Ok {| requestMethod := "PUT";
        endpoint :=
          base +:+ "/merge_requests/" +:+ numberToString iid +:+ "/rebase";
        body := ∅; qs := qs; returnAll := false |}.

(** Lines 289-294. *)
Definition closeOrReopen (operation : string) (p : Params) (base : string)
    : Result Request :=
  iid ← getNodeParameter (numberParams p) "mergeRequestIid" None;
  _ ← requirePositive iid "mergeRequestIid";
  let body : IDataObject :=
    <["state_event" :=
        JStr (if operation === "close" then "close" else "reopen")]> ∅ in
  Ok {| requestMethod := "PUT";
        endpoint := base +:+ "/merge_requests/" +:+ numberToString iid;
        body := body; qs := ∅; returnAll := false |}.

(** Lines 295-306. *)
Definition labels (p : Params) (base : string) : Result Request :=
  iid ← getNodeParameter (numberParams p) "mergeRequestIid" None;
  _ ← requirePositive iid "mergeRequestIid";
  action ← getNodeParameter (stringParams p) "labelAction" None;
  labels ← getNodeParameter (stringParams p) "labels" None;
  let body : IDataObject :=
    if action === "add"
    then <["add_labels" := JStr labels]> ∅
    else <["remove_labels" := JStr labels]> ∅ in
  Ok {| requestMethod := "PUT";
        endpoint := base +:+ "/merge_requests/" +:+ numberToString iid;
        body := body; qs := ∅; returnAll := false |}.

(** The message of line 308. *)
Definition unsupportedMessage (operation : string) : string :=
  "The operation " +:+ dquote +:+ operation +:+ dquote +:+
  " is not supported.".

(** The dispatch of lines 34-311, on the operation and the project base. *)
Definition dispatchMergeRequest (operation : string) (p : Params)
    (base : string) : Result Request :=
  if operation === "create" then create p base
  else if operation === "get" then get p base
  else if operation === "getAll" then getAll p base
  else if operation === "createNote" then createNote p base
  else if operation === "postDiscussionNote" then postDiscussionNote p base
  else if operation === "updateNote" then updateNote p base
  else if operation === "updateDiscussionNote"
       then updateDiscussionNote p base
  else if operation === "getChanges" then getChanges p base
  else if operation === "getDiscussions" then getDiscussions p base
  else if operation === "getDiscussion" then discussionRequest "GET" p base
  else if operation === "updateDiscussion" then updateDiscussion p base
  else if operation === "deleteDiscussion"
       then discussionRequest "DELETE" p base
  else if operation === "getNote" then noteRequest "GET" p base
  else if operation === "deleteNote" then noteRequest "DELETE" p base
  else if operation === "deleteDiscussionNote"
       then deleteDiscussionNote p base
  else if operation === "resolveDiscussion" then updateDiscussion p base
  else if operation === "merge" then merge p base
  else if operation === "rebase" then rebase p base
  else if (operation === "close") || (operation === "reopen")
       then closeOrReopen operation p base
  else if operation === "labels" then labels p base
  else Throw (NodeOperationError (unsupportedMessage operation)).

(** [handleMergeRequest.call(this, itemIndex)], lines 18-315; [p] is the
    parameters of the node at [itemIndex]. *)
Definition handleMergeRequest (p : Params) : Result Request :=
  operation ← getNodeParameter (stringParams p) "operation" None;
  base ← resolveBase p;
  dispatchMergeRequest operation p base.


(** ** The item loop of [GitlabExtended.execute] *)

(** The request variables as the loop body initialises them. *)
Definition initialRequest : Request :=
  {| requestMethod := "GET"; endpoint := ""; body := ∅; qs := ∅;
     returnAll := false |}.

(** [returnAll = getNodeParameter('returnAll'); if (!returnAll) qs.per_page =
    getNodeParameter('limit')], then the endpoint. *)
Definition listRequest (p : Params) (path : string) : Result Request :=
  returnAll ← getNodeParameter (booleanParams p) "returnAll" None;
  qs ← (if negb returnAll
        then limit ← getNodeParameter (numberParams p) "limit" None;
             Ok (<["per_page" := jsNumber limit]> (∅ : IDataObject))
        else Ok ∅);
  Ok {| requestMethod := "GET"; endpoint := path;
        body := ∅; qs := qs; returnAll := returnAll |}.

(** The [assets] parameter of a release, parsed into the body. *)
Definition addAssets (p : Params) (body : IDataObject) : Result IDataObject :=
  assets ← getNodeParameter (stringParams p) "assets" (Some "");
  if nonEmpty assets
  then match JSON_parse assets with
       | Some v => Ok (<["assets" := v]> body)
       | None =>
           Throw (NodeOperationError "Invalid JSON in 'assets' parameter")
       end
  else Ok body.

Definition tag (operation : string) (p : Params) (base : string)
    : Result Request :=
  if operation === "create" then
    tagName ← getNodeParameter (stringParams p) "tagName" None;
    ref ← getNodeParameter (stringParams p) "ref" None;
    message ← getNodeParameter (stringParams p) "message" (Some "");
    let body : IDataObject :=
      <["ref" := JStr ref]> (<["tag_name" := JStr tagName]> ∅) in
    let body := setIf (nonEmpty message) "message" (JStr message) body in
    Ok {| requestMethod := "POST"; endpoint := base +:+ "/repository/tags";
          body := body; qs := ∅; returnAll := false |}
  else if operation === "get" then
    tagName ← getNodeParameter (stringParams p) "tagName" None;
    Ok {| requestMethod := "GET";
          endpoint := base +:+ "/repository/tags/" +:+
                      encodeURIComponent tagName;
          body := ∅; qs := ∅; returnAll := false |}
  else if operation === "getAll" then
    listRequest p (base +:+ "/repository/tags")
  else if operation === "delete" then
    tagName ← getNodeParameter (stringParams p) "tagName" None;
    Ok {| requestMethod := "DELETE";
          endpoint := base +:+ "/repository/tags/" +:+
                      encodeURIComponent tagName;
          body := ∅; qs := ∅; returnAll := false |}
  else Ok initialRequest.

Definition release (operation : string) (p : Params) (base : string)
    : Result Request :=
  if operation === "create" then
    tagName ← getNodeParameter (stringParams p) "tagName" None;
    if negb (nonEmpty tagName)
    then Throw (NodeOperationError "tagName must not be empty")
    else
      name ← getNodeParameter (stringParams p) "name" None;
      let body : IDataObject :=
        <["name" := JStr name]> (<["tag_name" := JStr tagName]> ∅) in
      body ← addOptionalStringParam p body "releaseDescription" "description";
      body ← addAssets p body;
      Ok {| requestMethod := "POST"; endpoint := base +:+ "/releases";
            body := body; qs := ∅; returnAll := false |}
  else if operation === "update" then
    tagName ← getNodeParameter (stringParams p) "tagName" None;
    name ← getNodeParameter (stringParams p) "name" None;
    let body : IDataObject := <["name" := JStr name]> ∅ in
    body ← addOptionalStringParam p body "releaseDescription" "description";
    body ← addAssets p body;
    Ok {| requestMethod := "PUT";
          endpoint := base +:+ "/releases/" +:+ encodeURIComponent tagName;
          body := body; qs := ∅; returnAll := false |}
  else if operation === "get" then
    tagName ← getNodeParameter (stringParams p) "tagName" None;
    Ok {| requestMethod := "GET";
          endpoint := base +:+ "/releases/" +:+ encodeURIComponent tagName;
          body := ∅; qs := ∅; returnAll := false |}
  else if operation === "getAll" then
    listRequest p (base +:+ "/releases")
  else if operation === "delete" then
    tagName ← getNodeParameter (stringParams p) "tagName" None;
    Ok {| requestMethod := "DELETE";
          endpoint := base +:+ "/releases/" +:+ encodeURIComponent tagName;
          body := ∅; qs := ∅; returnAll := false |}
  else Ok initialRequest.

Definition group (operation : string) (p : Params) : Result Request :=
  if operation === "create" then
    groupName ← getNodeParameter (stringParams p) "groupName" None;
    groupPath ← getNodeParameter (stringParams p) "groupPath" None;
    parent ← getNodeParameter (numberParams p) "parentId" (Some (Some 0));
    let body : IDataObject :=
      <["path" := JStr groupPath]> (<["name" := JStr groupName]> ∅) in
    let body := setIf (truthyNumber parent) "parent_id" (jsNumber parent) body in
    Ok {| requestMethod := "POST"; endpoint := "/groups";
          body := body; qs := ∅; returnAll := false |}
  else if operation === "get" then
    id ← getNodeParameter (numberParams p) "groupId" None;
    _ ← requirePositive id "groupId";
    Ok {| requestMethod := "GET";
          endpoint := "/groups/" +:+ numberToString id;
          body := ∅; qs := ∅; returnAll := false |}
  else if operation === "delete" then
    id ← getNodeParameter (numberParams p) "groupId" None;
    _ ← requirePositive id "groupId";
    Ok {| requestMethod := "DELETE";
          endpoint := "/groups/" +:+ numberToString id;
          body := ∅; qs := ∅; returnAll := false |}
  else if operation === "getMembers" then
    id ← getNodeParameter (numberParams p) "groupId" None;
    _ ← requirePositive id "groupId";
    listRequest p ("/groups/" +:+ numberToString id +:+ "/members")
  else Ok initialRequest.

Definition project (operation : string) (p : Params) : Result Request :=
  if operation === "create" then
    projectName ← getNodeParameter (stringParams p) "projectName" None;
    projectPath ← getNodeParameter (stringParams p) "projectPath" None;
    ns ← getNodeParameter (numberParams p) "namespaceId" (Some (Some 0));
    let body : IDataObject :=
      <["path" := JStr projectPath]> (<["name" := JStr projectName]> ∅) in
    let body := setIf (truthyNumber ns) "namespace_id" (jsNumber ns) body in
    Ok {| requestMethod := "POST"; endpoint := "/projects";
          body := body; qs := ∅; returnAll := false |}
  else if operation === "get" then
    id ← getNodeParameter (numberParams p) "projectId" None;
    _ ← requirePositive id "projectId";
    Ok {| requestMethod := "GET";
          endpoint := "/projects/" +:+ numberToString id;
          body := ∅; qs := ∅; returnAll := false |}
  else if (operation === "getAll") || (operation === "search") then
    r ← listRequest p "/projects";
    if operation === "search"
    then searchTerm ← getNodeParameter (stringParams p) "searchTerm" None;
         Ok {| requestMethod := requestMethod r; endpoint := endpoint r;
               body := body r;
               qs := <["search" := JStr searchTerm]> (qs r);
               returnAll := returnAll r |}
    else Ok r
  else Ok initialRequest.

(** [title], the optional [description] and the optional [labels] of an
    issue, as [create] and [update] both set them. *)
Definition issueFields (p : Params) : Result IDataObject :=
  title ← getNodeParameter (stringParams p) "title" None;
  body ← addOptionalStringParam p (<["title" := JStr title]> ∅)
           "description" "description";
  labels ← getNodeParameter (stringParams p) "issueLabels" (Some "");
  Ok (setIf (nonEmpty labels) "labels" (JStr labels) body).

Definition issue_ (operation : string) (p : Params) (base : string)
    : Result Request :=
  if operation === "create" then
    body ← issueFields p;
    Ok {| requestMethod := "POST"; endpoint := base +:+ "/issues";
          body := body; qs := ∅; returnAll := false |}
  else if operation === "get" then
    id ← getNodeParameter (numberParams p) "issueIid" None;
    _ ← requirePositive id "issueIid";
    Ok {| requestMethod := "GET";
          endpoint := base +:+ "/issues/" +:+ numberToString id;
          body := ∅; qs := ∅; returnAll := false |}
  else if operation === "getAll" then
    listRequest p (base +:+ "/issues")
  else if operation === "update" then
    id ← getNodeParameter (numberParams p) "issueIid" None;
    _ ← requirePositive id "issueIid";
    body ← issueFields p;
    body ← (match stringParams p !! "issueState" with
            | Some issueState => Ok (<["state_event" := JStr issueState]> body)
            | None => Ok body
            end);
    Ok {| requestMethod := "PUT";
          endpoint := base +:+ "/issues/" +:+ numberToString id;
          body := body; qs := ∅; returnAll := false |}
  else if (operation === "close") || (operation === "reopen") then
    id ← getNodeParameter (numberParams p) "issueIid" None;
    _ ← requirePositive id "issueIid";
    let body : IDataObject :=
      <["state_event" :=
          JStr (if operation === "close" then "close" else "reopen")]> ∅ in
    Ok {| requestMethod := "PUT";
          endpoint := base +:+ "/issues/" +:+ numberToString id;
          body := body; qs := ∅; returnAll := false |}
  else Ok initialRequest.

Definition raw (operation : string) (p : Params) : Result Request :=
  if operation === "request" then
    httpMethod ← getNodeParameter (stringParams p) "httpMethod" None;
    path ← getNodeParameter (stringParams p) "endpoint" None;
    content ← getNodeParameter (objectParams p) "content" (Some ∅);
    queryParameters ←
      getNodeParameter (objectParams p) "queryParameters" (Some ∅);
    Ok {| requestMethod := httpMethod; endpoint := path;
          body := content; qs := queryParameters; returnAll := false |}
  else Ok initialRequest.

(** The message of line 1428. *)
Definition unknownResourceMessage (resource : string) : string :=
  "Unknown resource: " +:+ resource.

(** One turn of the loop, lines 1235-1443 of the node: [p] is the parameters
    at the item's index; [resource] and [operation] were read at index 0. *)
Definition executeItem (resource operation : string) (p : Params)
    : ItemOutcome :=
  match resolveBase p with
  | Throw e => ([], Some e)
  | Ok base =>
      if resource === "branch" then handleBranch p
      else if resource === "pipeline" then handlePipeline p
      else if resource === "tag" then issue (tag operation p base)
      else if resource === "release" then issue (release operation p base)
      else if resource === "group" then issue (group operation p)
      else if resource === "project" then issue (project operation p)
      else if resource === "file" then handleFile p
      else if resource === "issue" then issue (issue_ operation p base)
      else if resource === "mergeRequest" then issue (handleMergeRequest p)
      else if resource === "raw" then issue (raw operation p)
      else ([], Some (NodeOperationError (unknownResourceMessage resource)))
  end.

Fixpoint executeLoop (resource operation : string) (ctx : nat → Params)
    (indices : list nat) : ItemOutcome :=
  match indices with
  | [] => ([], None)
  | i :: rest =>
      match executeItem resource operation (ctx i) with
      | (requests, Some e) => (requests, Some e)
      | (requests, None) =>
          let '(later, e) := executeLoop resource operation ctx rest in
          (requests ++ later, e)
      end
  end.

(** [execute], lines 1226-1446: [ctx i] is the parameters at item index [i],
    [items] the number of input items. *)
Definition execute (ctx : nat → Params) (items : nat) : ItemOutcome :=
  match getNodeParameter (stringParams (ctx 0%nat)) "operation" None with
  | Throw e => ([], Some e)
  | Ok operation =>
      match getNodeParameter (stringParams (ctx 0%nat)) "resource" None with
      | Throw e => ([], Some e)
      | Ok resource =>
          match resolveBase (ctx 0%nat) with
          | Throw e => ([], Some e)
          | Ok _ => executeLoop resource operation ctx (seq 0 items)
          end
      end
  end.

End Builders.

(** ** The parameters as a handler reads them *)

(** The value of a string parameter read with a default. *)
Definition stringField (p : Params) (name dflt : string) : string :=
  default dflt (stringParams p !! name).

(** The value of a number parameter read with the default [null]. *)
Definition numberField (p : Params) (name : string) : option Z :=
  default None (numberParams p !! name).

(** The value of a boolean parameter read with the default [false]. *)
Definition booleanField (p : Params) (name : string) : bool :=
  default false (booleanParams p !! name).

(** The position-related parameters that [postDiscussionNote] reads. *)
Definition positionFields (p : Params) : PositionFields :=
  {| positionType := stringField p "positionType" "";
     newPath := stringField p "newPath" "";
     oldPath := stringField p "oldPath" "";
     newLine := numberField p "newLine";
     baseSha := stringField p "baseSha" "";
     headSha := stringField p "headSha" "";
     startSha := stringField p "startSha" "";
     oldLine := numberField p "oldLine";
     lineRangeStartLineCode := stringField p "lineRangeStartLineCode" "";
     lineRangeStartType := stringField p "lineRangeStartType" "";
     lineRangeStartOldLine := numberField p "lineRangeStartOldLine";
     lineRangeStartNewLine := numberField p "lineRangeStartNewLine";
     lineRangeEndLineCode := stringField p "lineRangeEndLineCode" "";
     lineRangeEndType := stringField p "lineRangeEndType" "";
     lineRangeEndOldLine := numberField p "lineRangeEndOldLine";
     lineRangeEndNewLine := numberField p "lineRangeEndNewLine" |}.

(** The body of [postDiscussionNote] before the position is attached,
    lines 63-67. *)
Definition noteBody (p : Params) (note : string) : IDataObject :=
  setIf (nonEmpty (stringField p "createdAt" "")) "created_at"
    (JStr (stringField p "createdAt" ""))
    (setIf (nonEmpty (stringField p "commitId" "")) "commit_id"
       (JStr (stringField p "commitId" ""))
       (<["body" := JStr note]> ∅)).

(** All five location fields are non-empty. *)
Definition locationComplete (f : PositionFields) : Prop :=
  newPath f ≠ "" ∧ oldPath f ≠ "" ∧ baseSha f ≠ "" ∧ headSha f ≠ "" ∧
  startSha f ≠ "".

(** The four code and type fields of the line range are non-empty. *)
Definition lineRangeComplete (f : PositionFields) : Prop :=
  lineRangeStartLineCode f ≠ "" ∧ lineRangeStartType f ≠ "" ∧
  lineRangeEndLineCode f ≠ "" ∧ lineRangeEndType f ≠ "".

(** The keys that a position always has. *)
Definition fixedPositionKeys : gset string :=
  {[ "position_type"; "new_path"; "old_path"; "base_sha"; "head_sha";
     "start_sha" ]}.

(** The keys of the position that [buildPosition] makes. *)
Definition positionKeys (f : PositionFields) : gset string :=
  fixedPositionKeys ∪
  (if newLine f is Some _ then {[ "new_line" ]} else ∅) ∪
  (if oldLine f is Some n then if n =? 0 then ∅ else {[ "old_line" ]}
   else ∅) ∪
  (if hasLineRange f then {[ "line_range" ]} else ∅).

(** The keys of a position as the specification lists them: the five
    location keys, and [new_line] and [old_line] when those are present. *)
Definition specPositionKeys (f : PositionFields) : gset string :=
  {[ "new_path"; "old_path"; "base_sha"; "head_sha"; "start_sha" ]} ∪
  (if newLine f is Some _ then {[ "new_line" ]} else ∅) ∪
  (if oldLine f is Some _ then {[ "old_line" ]} else ∅).

(** The operations that the dispatch of [handleMergeRequest] tests for. *)
Definition mergeRequestOperations : list string :=
  ["create"; "get"; "getAll"; "createNote"; "postDiscussionNote";
   "updateNote"; "updateDiscussionNote"; "getChanges"; "getDiscussions";
   "getDiscussion"; "updateDiscussion"; "deleteDiscussion"; "getNote";
   "deleteNote"; "deleteDiscussionNote"; "resolveDiscussion"; "merge";
   "rebase"; "close"; "reopen"; "labels"].

(** The operations that [execute] tests for under the resource [tag]. *)
Definition tagOperations : list string :=
  ["create"; "get"; "getAll"; "delete"].

(** The operations that [execute] tests for under the resources that it
    handles inline. *)
Definition inlineOperations (resource : string) : option (list string) :=
  if String.eqb resource "tag" then Some tagOperations
  else if String.eqb resource "release"
       then Some ["create"; "update"; "get"; "getAll"; "delete"]
  else if String.eqb resource "group"
       then Some ["create"; "get"; "delete"; "getMembers"]
  else if String.eqb resource "project"
       then Some ["create"; "get"; "getAll"; "search"]
  else if String.eqb resource "issue"
       then Some ["create"; "get"; "getAll"; "update"; "close"; "reopen"]
  else if String.eqb resource "raw" then Some ["request"]
  else None.

(** The resources that [execute] tests for. *)
Definition resources : list string :=
  ["branch"; "pipeline"; "tag"; "release"; "group"; "project"; "file";
   "issue"; "mergeRequest"; "raw"].

(** The two errors of an unsupported resource or operation, lines 308 of
    the handler and 1428 of the node. *)
Definition UnsupportedOperation (e : JsError) : Prop :=
  ∃ name, e = NodeOperationError (unsupportedMessage name) ∨
          e = NodeOperationError (unknownResourceMessage name).

(** [s] ends in [suffix]. *)
Definition endsWith (suffix s : string) : Prop :=
  ∃ prefix, s = prefix +:+ suffix.

(** ** The context of the tests *)

(** The tests run against project 1 of gitlab.example.com; the collaborators
    that the merge-request tests never reach are inert. *)
Definition testHost : Host :=
  {| resolveBase := λ _, Ok "/projects/1";
     addOptionalStringParam := λ p body param key,
       Ok (setIf (nonEmpty (stringField p param "")) key
             (JStr (stringField p param "")) body);
     handleBranch := λ _, ([], None);
     handlePipeline := λ _, ([], None);
     handleFile := λ _, ([], None);
     encodeURIComponent := λ s, s;
     JSON_parse := λ _, None |}.

(** The parameter object of a test. *)
Definition testParams (strs : list (string * string))
    (nums : list (string * option Z)) (bools : list (string * bool))
    : Params :=
  {| stringParams := list_to_map strs; numberParams := list_to_map nums;
     booleanParams := list_to_map bools; objectParams := ∅ |}.

(** 'postDiscussionNote builds note with position' *)
Definition noteWithPosition : Params :=
  testParams
    [("resource", "mergeRequest"); ("operation", "postDiscussionNote");
     ("body", "change"); ("positionType", "text"); ("newPath", "a.ts");
     ("oldPath", "a.ts"); ("baseSha", "111"); ("headSha", "222");
     ("startSha", "333")]
    [("mergeRequestIid", Some 12); ("newLine", Some 5); ("oldLine", Some 2)]
    [("startDiscussion", true)].

(** 'postDiscussionNote allows omitting line numbers' *)
Definition noteWithoutLines : Params :=
  testParams
    [("resource", "mergeRequest"); ("operation", "postDiscussionNote");
     ("body", "nolines"); ("positionType", "text"); ("newPath", "a.ts");
     ("oldPath", "a.ts"); ("baseSha", "111"); ("headSha", "222");
     ("startSha", "333")]
    [("mergeRequestIid", Some 13)]
    [("startDiscussion", true)].

(** 'postDiscussionNote includes line range for multiline note' *)
Definition noteWithLineRange : Params :=
  testParams
    [("resource", "mergeRequest"); ("operation", "postDiscussionNote");
     ("body", "multi"); ("positionType", "text"); ("newPath", "a.ts");
     ("oldPath", "a.ts"); ("baseSha", "111"); ("headSha", "222");
     ("startSha", "333"); ("lineRangeStartLineCode", "code1");
     ("lineRangeStartType", "new"); ("lineRangeEndLineCode", "code2");
     ("lineRangeEndType", "old")]
    [("mergeRequestIid", Some 14); ("lineRangeStartOldLine", Some 5);
     ("lineRangeEndNewLine", Some 7)]
    [("startDiscussion", true)].

(** 'postDiscussionNote throws on negative oldLine' *)
Definition noteWithNegativeOldLine : Params :=
  testParams
    [("resource", "mergeRequest"); ("operation", "postDiscussionNote");
     ("body", "bad"); ("positionType", "text"); ("newPath", "a.ts");
     ("oldPath", "a.ts"); ("baseSha", "111"); ("headSha", "222");
     ("startSha", "333")]
    [("mergeRequestIid", Some 24); ("newLine", Some 5);
     ("oldLine", Some (-1))]
    [("startDiscussion", true)].

(** 'postDiscussionNote throws if discussionId missing when not starting
    discussion' *)
Definition noteWithoutDiscussionId : Params :=
  testParams
    [("resource", "mergeRequest"); ("operation", "postDiscussionNote");
     ("body", "hi"); ("discussionId", "")]
    [("mergeRequestIid", Some 23)]
    [("startDiscussion", false)].

(** 'updateDiscussionNote can resolve note without body' *)
Definition resolveNote : Params :=
  testParams
    [("resource", "mergeRequest"); ("operation", "updateDiscussionNote");
     ("discussionId", "d9"); ("resolved", "true")]
    [("mergeRequestIid", Some 30); ("noteId", Some 14)]
    [].

(** 'updateDiscussionNote throws when body and resolved provided' *)
Definition resolveNoteWithBody : Params :=
  testParams
    [("resource", "mergeRequest"); ("operation", "updateDiscussionNote");
     ("discussionId", "d10"); ("body", "x"); ("resolved", "true")]
    [("mergeRequestIid", Some 31); ("noteId", Some 15)]
    [].

(** 'merge builds correct endpoint and body' *)
Definition mergeSquash : Params :=
  testParams
    [("resource", "mergeRequest"); ("operation", "merge");
     ("mergeCommitMessage", "done"); ("mergeStrategy", "squash")]
    [("mergeRequestIid", Some 10)]
    [].

(** 'labels add builds correct body' *)
Definition labelsAdd : Params :=
  testParams
    [("resource", "mergeRequest"); ("operation", "labels");
     ("labels", "bug,urgent"); ("labelAction", "add")]
    [("mergeRequestIid", Some 21)]
    [].

(** 'labels remove builds correct body' *)
Definition labelsRemove : Params :=
  testParams
    [("resource", "mergeRequest"); ("operation", "labels");
     ("labels", "bug,urgent"); ("labelAction", "remove")]
    [("mergeRequestIid", Some 22)]
    [].

(** A tag item whose operation is none of the four that [execute] tests
    for. *)
Definition tagWithUnknownOperation : Params :=
  testParams [("resource", "tag"); ("operation", "rename")] [] [].

(** The requests that the tests expect for [noteWithPosition] and
    [noteWithoutLines]. *)
Definition noteWithPositionRequest : Request :=
  {| requestMethod := "POST";
     endpoint := "/projects/1/merge_requests/12/discussions";
     body :=
       {[ "body" := JStr "change";
          "position" :=
            JObj {[ "position_type" := JStr "text";
                    "new_path" := JStr "a.ts";
                    "old_path" := JStr "a.ts";
                    "new_line" := JNum 5;
                    "base_sha" := JStr "111";
                    "head_sha" := JStr "222";
                    "start_sha" := JStr "333";
                    "old_line" := JNum 2 ]} ]};
     qs := ∅; returnAll := false |}.

Definition noteWithoutLinesPosition : IDataObject :=
  {[ "position_type" := JStr "text";
     "new_path" := JStr "a.ts";
     "old_path" := JStr "a.ts";
     "base_sha" := JStr "111";
     "head_sha" := JStr "222";
     "start_sha" := JStr "333" ]}.

Definition noteWithoutLinesRequest : Request :=
  {| requestMethod := "POST";
     endpoint := "/projects/1/merge_requests/13/discussions";
     body := {[ "body" := JStr "nolines";
                "position" := JObj noteWithoutLinesPosition ]};
     qs := ∅; returnAll := false |}.

(** The request that the tests expect for [noteWithLineRange]. *)
Definition noteWithLineRangeRequest : Request :=
  {| requestMethod := "POST";
     endpoint := "/projects/1/merge_requests/14/discussions";
     body :=
       {[ "body" := JStr "multi";
          "position" :=
            JObj {[ "position_type" := JStr "text";
                    "new_path" := JStr "a.ts";
                    "old_path" := JStr "a.ts";
                    "base_sha" := JStr "111";
                    "head_sha" := JStr "222";
                    "start_sha" := JStr "333";
                    "line_range" :=
                      JObj {[ "start" :=
                                JObj {[ "line_code" := JStr "code1";
                                        "type" := JStr "new";
                                        "old_line" := JNum 5 ]};
                              "end" :=
                                JObj {[ "line_code" := JStr "code2";
                                        "type" := JStr "old";
                                        "new_line" := JNum 7 ]} ]} ]} ]};
     qs := ∅; returnAll := false |}.

(** [noteWithoutLines] with no [positionType] set, and its request. *)
Definition noteWithDefaultType : Params :=
  testParams
    [("resource", "mergeRequest"); ("operation", "postDiscussionNote");
     ("body", "nolines"); ("newPath", "a.ts"); ("oldPath", "a.ts");
     ("baseSha", "111"); ("headSha", "222"); ("startSha", "333")]
    [("mergeRequestIid", Some 13)]
    [("startDiscussion", true)].

Definition noteWithDefaultTypeRequest : Request := noteWithoutLinesRequest.

(** [noteWithLineRange] with negative lines in the range, and an [oldLine]
    of 0 next to a [newLine] of 0. *)
Definition noteWithNegativeRange : Params :=
  testParams
    [("resource", "mergeRequest"); ("operation", "postDiscussionNote");
     ("body", "multi"); ("positionType", "text"); ("newPath", "a.ts");
     ("oldPath", "a.ts"); ("baseSha", "111"); ("headSha", "222");
     ("startSha", "333"); ("lineRangeStartLineCode", "code1");
     ("lineRangeStartType", "new"); ("lineRangeEndLineCode", "code2");
     ("lineRangeEndType", "old")]
    [("mergeRequestIid", Some 14); ("newLine", Some 0); ("oldLine", Some 0);
     ("lineRangeStartOldLine", Some (-5));
     ("lineRangeEndNewLine", Some (-7))]
    [("startDiscussion", true)].

(** ** The constructor of the node

    GitlabExtended.node.ts, lines 1205-1224: every property of the node
    description gets a note on whether it is optional and on its default. *)

(** The [default] of a property of the description; the description has
    strings, numbers, booleans and [null], and properties without one. *)
Inductive PropertyDefault : Type :=
| DUndefined
| DNull
| DBool (b : bool)
| DNum (n : Z)
| DStr (s : string).

(** What the constructor reads of a property and what it writes. *)
Record Property : Type := {
  propertyName : string;
  required : option bool;
  defaultValue : PropertyDefault;
  description : option string;
}.

(** Template interpolation of a default. *)
Definition defaultToString (d : PropertyDefault) : string :=
  match d with
  | DUndefined => "undefined"
  | DNull => "null"
  | DBool true => "true"
  | DBool false => "false"
  | DNum n => pretty n
  | DStr s => s
  end.

(** Line 1209: [defaultValue !== undefined && defaultValue !== '' &&
    defaultValue !== null]. *)
Definition hasDefault (d : PropertyDefault) : bool :=
  match d with
  | DUndefined | DNull => false
  | DStr s => nonEmpty s
  | DBool _ | DNum _ => true
  end.

(** Line 1207: [prop.required === true]. *)
Definition isRequired (prop : Property) : bool :=
  match required prop with
  | Some true => true
  | _ => false
  end.

(** Lines 1210-1219: the new description of a property. *)
Definition decorateDescription (prop : Property) : string :=
  let desc := default "" (description prop) in
  if negb (isRequired prop) then
    let desc :=
      desc +:+ (if nonEmpty desc then " (Optional" else "Optional") in
    let desc :=
      if hasDefault (defaultValue prop)
      then desc +:+ ", default: " +:+ defaultToString (defaultValue prop)
      else desc in
    desc +:+ ")"
  else if hasDefault (defaultValue prop) then
    desc +:+ ((if nonEmpty desc then " " else "") +:+
              "Default: " +:+ defaultToString (defaultValue prop))
  else desc.

(** Lines 1205-1224: the loop over the properties. *)
Definition constructor (properties : list Property) : list Property :=
  (λ prop, {| propertyName := propertyName prop;
              required := required prop;
              defaultValue := defaultValue prop;
              description := Some (decorateDescription prop) |})
  <$> properties.

(** Three properties of the description: [newLine] (lines 930-941, not
    required, default null), [discussionId] (lines 824-847, required,
    default '') and [startDiscussion] (lines 811-822, not required, default
    false). *)
Definition newLineProperty : Property :=
  {| propertyName := "newLine"; required := None; defaultValue := DNull;
     description := Some "Line number in the new file" |}.

Definition discussionIdProperty : Property :=
  {| propertyName := "discussionId"; required := Some true;
     defaultValue := DStr "";
     description :=
       Some "Discussion ID to reply to or fetch, e.g. '123abc'" |}.

Definition startDiscussionProperty : Property :=
  {| propertyName := "startDiscussion"; required := None;
     defaultValue := DBool false;
     description :=
       Some "Whether to start a new discussion instead of replying to an existing one" |}.

(** ** More on the requests *)

(** [s] starts with [prefix]. *)
Definition startsWith (prefix s : string) : Prop :=
  ∃ rest, s = prefix +:+ rest.




(** [p] and [p'] are the same parameters but for the string parameter
    [name]. *)
Definition sameBut (name : string) (p p' : Params) : Prop :=
  (∀ other, other ≠ name →
     stringParams p' !! other = stringParams p !! other) ∧
  numberParams p' = numberParams p ∧
  booleanParams p' = booleanParams p ∧
  objectParams p' = objectParams p.

(** 'get builds correct endpoint' *)
Definition getOne : Params :=
  testParams [("resource", "mergeRequest"); ("operation", "get")]
    [("mergeRequestIid", Some 1)] [].

Definition getOneRequest : Request :=
  {| requestMethod := "GET"; endpoint := "/projects/1/merge_requests/1";
     body := ∅; qs := ∅; returnAll := false |}.

(** 'getAll builds correct endpoint with limit' *)
Definition getAllLimited : Params :=
  testParams [("resource", "mergeRequest"); ("operation", "getAll")]
    [("limit", Some 3)] [("returnAll", false)].

Definition getAllLimitedRequest : Request :=
  {| requestMethod := "GET"; endpoint := "/projects/1/merge_requests";
     body := ∅; qs := {[ "per_page" := JNum 3 ]}; returnAll := false |}.

(** 'getChanges includes query params when accessRawDiffs and unidiff are
    true' *)
Definition getChangesRaw : Params :=
  testParams [("resource", "mergeRequest"); ("operation", "getChanges")]
    [("mergeRequestIid", Some 11)]
    [("accessRawDiffs", true); ("unidiff", true)].

Definition getChangesRawRequest : Request :=
  {| requestMethod := "GET";
     endpoint := "/projects/1/merge_requests/11/changes";
     body := ∅;
     qs := {[ "access_raw_diffs" := JBool true; "unidiff" := JBool true ]};
     returnAll := false |}.

(** 'rebase builds correct endpoint with skip_ci' *)
Definition rebaseSkipCi : Params :=
  testParams [("resource", "mergeRequest"); ("operation", "rebase")]
    [("mergeRequestIid", Some 7)] [("skipCi", true)].


(** 'resolveDiscussion builds correct endpoint and body' *)
Definition unresolveDiscussion : Params :=
  testParams
    [("resource", "mergeRequest"); ("operation", "resolveDiscussion");
     ("discussionId", "d3"); ("resolved", "false")]
    [("mergeRequestIid", Some 16)] [].




(** 'postDiscussionNote includes commitId and createdAt' *)
Definition noteWithMeta : Params :=
  testParams
    [("resource", "mergeRequest"); ("operation", "postDiscussionNote");
     ("body", "meta"); ("commitId", "abc123");
     ("createdAt", "2024-01-01T00:00:00Z")]
    [("mergeRequestIid", Some 26)] [("startDiscussion", true)].

Definition noteWithMetaRequest : Request :=
  {| requestMethod := "POST";
     endpoint := "/projects/1/merge_requests/26/discussions";
     body := {[ "body" := JStr "meta"; "commit_id" := JStr "abc123";
                "created_at" := JStr "2024-01-01T00:00:00Z" ]};
     qs := ∅; returnAll := false |}.


(** A reply with no [discussionId] parameter at all. *)
Definition replyWithoutParameter : Params :=
  testParams
    [("resource", "mergeRequest"); ("operation", "postDiscussionNote");
     ("body", "hi")]
    [("mergeRequestIid", Some 23)] [("startDiscussion", false)].

(** [resolveNote] with a selector that is none of the three options. *)
Definition resolveNoteOddly : Params :=
  testParams
    [("resource", "mergeRequest"); ("operation", "updateDiscussionNote");
     ("discussionId", "d9"); ("resolved", "maybe")]
    [("mergeRequestIid", Some 30); ("noteId", Some 14)] [].

(** A release to create with an empty tag name. *)
Definition releaseWithoutTag : Params :=
  testParams
    [("resource", "release"); ("operation", "create"); ("tagName", "");
     ("name", "first")] [] [].

(** What [execute] reads before the loop, lines 1229-1232: the operation
    and the resource at index 0, and valid credentials there. *)
Definition started {host : Host} (ctx : nat → Params)
    (resource operation : string) : Prop :=
  stringParams (ctx 0%nat) !! "operation" = Some operation ∧
  stringParams (ctx 0%nat) !! "resource" = Some resource ∧
  ∃ base, resolveBase (ctx 0%nat) = Ok base.

(** The requests that the tests expect for [rebaseSkipCi],
    [unresolveDiscussion] and [closeTwo]. *)
Definition rebaseSkipCiRequest : Request :=
  {| requestMethod := "PUT";
     endpoint := "/projects/1/merge_requests/7/rebase";
     body := ∅; qs := {[ "skip_ci" := JBool true ]}; returnAll := false |}.

Definition unresolveDiscussionRequest : Request :=
  {| requestMethod := "PUT";
     endpoint := "/projects/1/merge_requests/16/discussions/d3";
     body := {[ "resolved" := JBool false ]}; qs := ∅;
     returnAll := false |}.


(** The request of [resolveNoteOddly]. *)
Definition resolveNoteOddlyRequest : Request :=
  {| requestMethod := "PUT";
     endpoint := "/projects/1/merge_requests/30/discussions/d9/notes/14";
     body := {[ "resolved" := JNull ]}; qs := ∅; returnAll := false |}.

(** [noteWithMeta] with a [discussionId] next to [startDiscussion] true. *)
Definition noteWithMetaAndId : Params :=
  {| stringParams := <["discussionId" := "d7"]> (stringParams noteWithMeta);
     numberParams := numberParams noteWithMeta;
     booleanParams := booleanParams noteWithMeta;
     objectParams := objectParams noteWithMeta |}.

(** Three items of the merge-request resource: the first is [getOne], the
    others are [noteWithNegativeOldLine]. *)
Definition mixedItems (i : nat) : Params :=
  match i with
  | O => getOne
  | _ => noteWithNegativeOldLine
  end.

(** A group to create under the group 5. *)
Definition groupUnderParent : Params :=
  testParams
    [("resource", "group"); ("operation", "create"); ("groupName", "team");
     ("groupPath", "team")]
    [("parentId", Some 5)] [].

(** ** Properties *)

Section Properties.
Context {host : Host}.

(** *** Reading parameters *)

Lemma getNodeParameter_default {V} (table : gmap string V) name d :
  getNodeParameter table name (Some d) = Ok (default d (table !! name)).
Proof. unfold getNodeParameter. by destruct (table !! name). Qed.

Lemma getNodeParameter_set {V} (table : gmap string V) name d v :
  table !! name = Some v → getNodeParameter table name d = Ok v.
Proof. unfold getNodeParameter. by intros ->. Qed.

Lemma getNodeParameter_Ok_inv {V} (table : gmap string V) name v :
  getNodeParameter table name None = Ok v → table !! name = Some v.
Proof. unfold getNodeParameter. destruct (table !! name); congruence. Qed.

Lemma bind_Ok {A B} (f : A → Result B) a : Ok a ≫= f = f a.
Proof. reflexivity. Qed.

Lemma bind_Ok_inv {A B} (f : A → Result B) m b :
  m ≫= f = Ok b → ∃ a, m = Ok a ∧ f a = Ok b.
Proof. destruct m; [eauto | discriminate]. Qed.

Lemma requirePositive_Ok k name : 0 < k → requirePositive (Some k) name = Ok tt.
Proof. intros Hk. simpl. by rewrite (proj2 (Z.ltb_lt 0 k) Hk). Qed.

Lemma requirePositive_Ok_inv v name u :
  requirePositive v name = Ok u → ∃ k, v = Some k ∧ 0 < k.
Proof.
  destruct v as [k|]; simpl; [|discriminate].
  destruct (0 <? k) eqn:E; [|discriminate].
  intros _. exists k. split; [done | lia].
Qed.

Lemma append_assoc s1 s2 s3 : (s1 +:+ s2) +:+ s3 = s1 +:+ s2 +:+ s3.
Proof.
  induction s1 as [|c s1 IH]; [done|].
  change (String c ((s1 +:+ s2) +:+ s3) = String c (s1 +:+ s2 +:+ s3)).
  by rewrite IH.
Qed.

Lemma nonEmpty_true s : nonEmpty s = true ↔ s ≠ "".
Proof.
  unfold nonEmpty. rewrite negb_true_iff. apply String.eqb_neq.
Qed.

Lemma nonEmpty_false s : nonEmpty s = false ↔ s = "".
Proof.
  unfold nonEmpty. rewrite negb_false_iff. apply String.eqb_eq.
Qed.

Lemma hasPosition_true f : hasPosition f = true ↔ locationComplete f.
Proof.
  unfold hasPosition, locationComplete.
  rewrite !andb_true_iff, !nonEmpty_true. tauto.
Qed.

Lemma hasLineRange_true f : hasLineRange f = true ↔ lineRangeComplete f.
Proof.
  unfold hasLineRange, lineRangeComplete.
  rewrite !andb_true_iff, !nonEmpty_true. tauto.
Qed.

(** *** [postDiscussionNote] as a whole *)

(** Once the operation, the project base, the merge request and the note
    text are there, what is left is the position and the endpoint. *)
Lemma postDiscussionNote_run p base k note :
  stringParams p !! "operation" = Some "postDiscussionNote" →
  resolveBase p = Ok base →
  numberParams p !! "mergeRequestIid" = Some (Some k) →
  0 < k →
  stringParams p !! "body" = Some note →
  handleMergeRequest p =
    (body ← attachPosition (positionFields p) (noteBody p note);
     endpoint ← discussionEndpoint p base (Some k)
                  (booleanField p "startDiscussion");
     Ok {| requestMethod := "POST"; endpoint := endpoint; body := body;
           qs := ∅; returnAll := false |}).
Proof.
  intros Hop Hbase Hiid Hk Hnote. unfold handleMergeRequest.
  rewrite (getNodeParameter_set _ _ _ _ Hop), bind_Ok, Hbase, bind_Ok.
  change (dispatchMergeRequest "postDiscussionNote" p base)
    with (postDiscussionNote p base).
  unfold postDiscussionNote.
  rewrite (getNodeParameter_set _ _ _ _ Hiid), bind_Ok.
  rewrite (requirePositive_Ok _ _ Hk), bind_Ok.
  rewrite (getNodeParameter_set _ _ _ _ Hnote).
  rewrite !getNodeParameter_default. reflexivity.
Qed.

(** A request of [postDiscussionNote] comes from a positive merge request
    id and a note text, a position step and an endpoint step that both
    succeeded. *)
Lemma postDiscussionNote_Ok_inv p r :
  stringParams p !! "operation" = Some "postDiscussionNote" →
  handleMergeRequest p = Ok r →
  ∃ base k note,
    resolveBase p = Ok base ∧
    numberParams p !! "mergeRequestIid" = Some (Some k) ∧ 0 < k ∧
    stringParams p !! "body" = Some note ∧
    attachPosition (positionFields p) (noteBody p note) = Ok (body r) ∧
    discussionEndpoint p base (Some k) (booleanField p "startDiscussion")
      = Ok (endpoint r) ∧
    requestMethod r = "POST" ∧ qs r = ∅ ∧ returnAll r = false.
Proof.
  intros Hop Hrun. pose proof Hrun as Hrun'.
  unfold handleMergeRequest in Hrun'.
  rewrite (getNodeParameter_set _ _ _ _ Hop), bind_Ok in Hrun'.
  apply bind_Ok_inv in Hrun' as (base & Hbase & Hrun').
  change (dispatchMergeRequest "postDiscussionNote" p base)
    with (postDiscussionNote p base) in Hrun'.
  unfold postDiscussionNote in Hrun'.
  apply bind_Ok_inv in Hrun' as (iid & Hiid & Hrun').
  apply bind_Ok_inv in Hrun' as (u & Hpos & Hrun').
  apply requirePositive_Ok_inv in Hpos as (k & -> & Hk).
  apply getNodeParameter_Ok_inv in Hiid. cbv beta in Hrun'.
  rewrite (getNodeParameter_default (booleanParams p)), bind_Ok in Hrun'.
  apply bind_Ok_inv in Hrun' as (note & Hnote & _).
  apply getNodeParameter_Ok_inv in Hnote.
  rewrite (postDiscussionNote_run p base k note) in Hrun by done.
  apply bind_Ok_inv in Hrun as (b & Hb & Hrun).
  apply bind_Ok_inv in Hrun as (e & He & Hrun).
  injection Hrun as <-. exists base, k, note. simpl. by repeat split.
Qed.

(** *** The position object *)

Lemma noteBody_no_position p note : noteBody p note !! "position" = None.
Proof.
  unfold noteBody, setIf.
  destruct (nonEmpty (stringField p "createdAt" ""));
    destruct (nonEmpty (stringField p "commitId" "")); reflexivity.
Qed.

Lemma attachPosition_Ok_inv f b b' :
  attachPosition f b = Ok b' →
  (hasPosition f = false ∧ b' = b) ∨
  (∃ pos, hasPosition f = true ∧ buildPosition f = Ok pos ∧
          b' = <["position" := JObj pos]> b).
Proof.
  unfold attachPosition. destruct (hasPosition f).
  - intros (pos & Hpos & [= <-])%bind_Ok_inv. right. by exists pos.
  - intros [= <-]. by left.
Qed.


Lemma buildPosition_Ok_inv f pos :
  buildPosition f = Ok pos →
  (∀ n, oldLine f = Some n → 0 ≤ n) ∧
  pos !! "position_type" =
    Some (JStr (if nonEmpty (positionType f)
                then positionType f else "text")) ∧
  pos !! "new_path" = Some (JStr (newPath f)) ∧
  pos !! "old_path" = Some (JStr (oldPath f)) ∧
  pos !! "base_sha" = Some (JStr (baseSha f)) ∧
  pos !! "head_sha" = Some (JStr (headSha f)) ∧
  pos !! "start_sha" = Some (JStr (startSha f)) ∧
  pos !! "new_line" = JNum <$> newLine f ∧
  pos !! "old_line" =
    match oldLine f with
    | Some n => if n =? 0 then None else Some (JNum n)
    | None => None
    end ∧
  pos !! "line_range" =
    (if hasLineRange f then Some (JObj (buildLineRange f)) else None).
Proof.
  unfold buildPosition, setLine, setIf.
  destruct (oldLine f) as [n|] eqn:Hold.
  - destruct (n <? 0) eqn:Hn; [discriminate|]. apply Z.ltb_ge in Hn.
    intros [= <-]. split; [by intros ? [= <-]|].
    destruct (n =? 0), (newLine f), (hasLineRange f);
      repeat split; reflexivity.
  - intros [= <-]. split; [discriminate|].
    destruct (newLine f), (hasLineRange f); repeat split; reflexivity.
Qed.

(** The position of an issued [postDiscussionNote] request, when the
    location is complete. *)
Lemma postDiscussionNote_position p r :
  stringParams p !! "operation" = Some "postDiscussionNote" →
  handleMergeRequest p = Ok r →
  locationComplete (positionFields p) →
  ∃ pos, buildPosition (positionFields p) = Ok pos ∧
         body r !! "position" = Some (JObj pos).
Proof.
  intros Hop Hrun Hloc.
  destruct (postDiscussionNote_Ok_inv p r Hop Hrun)
    as (base & k & note & _ & _ & _ & _ & Hatt & _).
  apply attachPosition_Ok_inv in Hatt as [[Hno _] | (pos & _ & Hpos & ->)].
  - apply hasPosition_true in Hloc. congruence.
  - exists pos. split; [done|]. apply lookup_insert_eq.
Qed.

(** C1. For [postDiscussionNote], the body of the request has a [position]
    exactly when the five location fields [newPath], [oldPath], [baseSha],
    [headSha] and [startSha] are all non-empty; when any of them is empty
    the body has no [position] key, whatever the other position fields
    hold. *)
Theorem C1_position_iff_location_complete p r :
  stringParams p !! "operation" = Some "postDiscussionNote" →
  handleMergeRequest p = Ok r →
  (is_Some (body r !! "position") ↔ locationComplete (positionFields p)) ∧
  (newPath (positionFields p) = "" ∨ oldPath (positionFields p) = "" ∨
   baseSha (positionFields p) = "" ∨ headSha (positionFields p) = "" ∨
   startSha (positionFields p) = "" →
   body r !! "position" = None).
Proof.
  intros Hop Hrun.
  destruct (postDiscussionNote_Ok_inv p r Hop Hrun)
    as (base & k & note & _ & _ & _ & _ & Hatt & _).
  apply attachPosition_Ok_inv in Hatt as [[Hno ->] | (pos & Hyes & _ & ->)].
  - rewrite noteBody_no_position.
    assert (¬ locationComplete (positionFields p)) as Hnot.
    { rewrite <- hasPosition_true. congruence. }
    split; [|done]. split; [by intros [? ?] | done].
  - rewrite lookup_insert_eq. apply hasPosition_true in Hyes as Hloc.
    split; [by split; eauto|].
    unfold locationComplete in Hloc. intros Hempty. exfalso. tauto.
Qed.

(** C10. For [postDiscussionNote], a position that is built always has a
    [position_type]: the [positionType] field when it is non-empty, and
    "text" when the field is empty or not set. *)
Theorem C10_position_type_default p r :
  stringParams p !! "operation" = Some "postDiscussionNote" →
  handleMergeRequest p = Ok r →
  locationComplete (positionFields p) →
  ∃ pos, body r !! "position" = Some (JObj pos) ∧
    (∀ t, stringParams p !! "positionType" = Some t → t ≠ "" →
          pos !! "position_type" = Some (JStr t)) ∧
    (stringParams p !! "positionType" = Some "" →
     pos !! "position_type" = Some (JStr "text")) ∧
    (stringParams p !! "positionType" = None →
     pos !! "position_type" = Some (JStr "text")).
Proof.
  intros Hop Hrun Hloc.
  destruct (postDiscussionNote_position p r Hop Hrun Hloc)
    as (pos & Hpos & Hbody).
  exists pos. split; [done|].
  apply buildPosition_Ok_inv in Hpos as (_ & -> & _).
  cbn [positionFields positionType]. unfold stringField.
  split; [|split].
  - intros t -> Ht. apply nonEmpty_true in Ht. simpl. by rewrite Ht.
  - by intros ->.
  - by intros ->.
Qed.


Lemma buildPosition_dom f pos :
  buildPosition f = Ok pos → dom pos = positionKeys f.
Proof.
  unfold buildPosition, positionKeys, setLine, setIf.
  destruct (oldLine f) as [n|].
  - destruct (n <? 0); [discriminate|]. intros [= <-].
    destruct (n =? 0), (newLine f), (hasLineRange f); cbv [negb];
      rewrite ?dom_insert_L, dom_empty_L;
      unfold fixedPositionKeys; set_solver.
  - intros [= <-].
    destruct (newLine f), (hasLineRange f);
      rewrite ?dom_insert_L, dom_empty_L;
      unfold fixedPositionKeys; set_solver.
Qed.

(** C5, amended. For [postDiscussionNote] with a complete location, the keys
    of the position are exactly [position_type], [new_path], [old_path],
    [base_sha], [head_sha] and [start_sha], with [new_line] when [newLine]
    is not null, [old_line] when [oldLine] is neither null nor 0, and
    [line_range] when the four code and type fields of the line range are
    non-empty. *)
Theorem C5_position_keys p r :
  stringParams p !! "operation" = Some "postDiscussionNote" →
  handleMergeRequest p = Ok r →
  locationComplete (positionFields p) →
  ∃ pos, body r !! "position" = Some (JObj pos) ∧
    ∀ key, key ∈ dom pos ↔
      key ∈ ["position_type"; "new_path"; "old_path"; "base_sha";
             "head_sha"; "start_sha"] ∨
      (key = "new_line" ∧ ∃ n, numberParams p !! "newLine" = Some (Some n)) ∨
      (key = "old_line" ∧
       ∃ n, numberParams p !! "oldLine" = Some (Some n) ∧ n ≠ 0) ∨
      (key = "line_range" ∧ lineRangeComplete (positionFields p)).
Proof.
  intros Hop Hrun Hloc.
  destruct (postDiscussionNote_position p r Hop Hrun Hloc)
    as (pos & Hpos & Hbody).
  exists pos. split; [done|]. intros key.
  rewrite (buildPosition_dom _ _ Hpos). unfold positionKeys.
  rewrite !elem_of_union, <- hasLineRange_true.
  cbn [positionFields newLine oldLine]. unfold numberField.
  assert (key ∈ fixedPositionKeys ↔
          key ∈ ["position_type"; "new_path"; "old_path"; "base_sha";
                 "head_sha"; "start_sha"]) as ->.
  { unfold fixedPositionKeys.
    rewrite !elem_of_union, !elem_of_singleton, !elem_of_cons, elem_of_nil.
    tauto. }
  assert (∀ (o : option (option Z)),
    key ∈ (if default None o is Some _
           then {[ "new_line" ]} else ∅ : gset string) ↔
    key = "new_line" ∧ ∃ n, o = Some (Some n)) as ->.
  { intros [[n|]|]; simpl; [|set_solver..].
    rewrite elem_of_singleton.
    split; [intros ->; eauto | by intros [-> _]]. }
  assert (∀ (o : option (option Z)),
    key ∈ (if default None o is Some n
           then if n =? 0 then ∅ else {[ "old_line" ]}
           else ∅ : gset string) ↔
    key = "old_line" ∧ ∃ n, o = Some (Some n) ∧ n ≠ 0) as ->.
  { intros [[n|]|]; simpl; [|set_solver..].
    destruct (n =? 0) eqn:E.
    - apply Z.eqb_eq in E. set_solver.
    - apply Z.eqb_neq in E. rewrite elem_of_singleton.
      split; [intros ->; eauto | by intros [-> _]]. }
  destruct (hasLineRange (positionFields p)).
  - rewrite elem_of_singleton. tauto.
  - rewrite elem_of_empty. split; [tauto|].
    intros [?|[?|[?|[_ ?]]]]; [tauto..|discriminate].
Qed.

(** *** The line range *)

Lemma setLine_lookup key line (obj : IDataObject) :
  obj !! key = None → setLine key line obj !! key = JNum <$> line.
Proof.
  intros Hfree. destruct line as [n|]; simpl; [|done].
  apply lookup_insert_eq.
Qed.

Lemma setLine_lookup_ne key key' line (obj : IDataObject) :
  key ≠ key' → setLine key line obj !! key' = obj !! key'.
Proof.
  intros Hne. destruct line as [n|]; simpl; [|done].
  by apply lookup_insert_ne.
Qed.

(** One side of a line range: the code, the type and the two optional
    lines. *)
Lemma lineRange_side code type old new :
  let side : IDataObject :=
    setLine "new_line" new
      (setLine "old_line" old
         (<["type" := JStr type]> (<["line_code" := JStr code]> ∅))) in
  side !! "line_code" = Some (JStr code) ∧
  side !! "type" = Some (JStr type) ∧
  side !! "old_line" = JNum <$> old ∧
  side !! "new_line" = JNum <$> new.
Proof.
  intros side. unfold side. repeat split.
  - by rewrite !setLine_lookup_ne.
  - by rewrite !setLine_lookup_ne.
  - rewrite setLine_lookup_ne by done. by apply setLine_lookup.
  - apply setLine_lookup. by rewrite setLine_lookup_ne.
Qed.

(** C6. For [postDiscussionNote], a position that is built has a
    [line_range] exactly when [lineRangeStartLineCode], [lineRangeStartType],
    [lineRangeEndLineCode] and [lineRangeEndType] are all non-empty. Its
    [start] and [end] then always have [line_code] and [type], and have
    [old_line] and [new_line] exactly when the matching parameter is not
    null, with its value unchanged, whatever its sign. *)
Theorem C6_line_range p r :
  stringParams p !! "operation" = Some "postDiscussionNote" →
  handleMergeRequest p = Ok r →
  locationComplete (positionFields p) →
  let f := positionFields p in
  ∃ pos, body r !! "position" = Some (JObj pos) ∧
    (is_Some (pos !! "line_range") ↔ lineRangeComplete f) ∧
    (lineRangeComplete f →
     ∃ range start end_,
       pos !! "line_range" = Some (JObj range) ∧
       range !! "start" = Some (JObj start) ∧
       range !! "end" = Some (JObj end_) ∧
       start !! "line_code" = Some (JStr (lineRangeStartLineCode f)) ∧
       start !! "type" = Some (JStr (lineRangeStartType f)) ∧
       start !! "old_line" = JNum <$> lineRangeStartOldLine f ∧
       start !! "new_line" = JNum <$> lineRangeStartNewLine f ∧
       end_ !! "line_code" = Some (JStr (lineRangeEndLineCode f)) ∧
       end_ !! "type" = Some (JStr (lineRangeEndType f)) ∧
       end_ !! "old_line" = JNum <$> lineRangeEndOldLine f ∧
       end_ !! "new_line" = JNum <$> lineRangeEndNewLine f).
Proof.
  intros Hop Hrun Hloc f.
  destruct (postDiscussionNote_position p r Hop Hrun Hloc)
    as (pos & Hpos & Hbody).
  exists pos. split; [done|].
  apply buildPosition_Ok_inv
    in Hpos as (_ & _ & _ & _ & _ & _ & _ & _ & _ & Hrange).
  fold f in Hrange. rewrite Hrange, <- hasLineRange_true. split.
  - destruct (hasLineRange f).
    + split; [done | eauto].
    + split; [by intros [? ?] | done].
  - intros ->.
    destruct (lineRange_side (lineRangeStartLineCode f)
                (lineRangeStartType f) (lineRangeStartOldLine f)
                (lineRangeStartNewLine f)) as (Hs1 & Hs2 & Hs3 & Hs4).
    destruct (lineRange_side (lineRangeEndLineCode f)
                (lineRangeEndType f) (lineRangeEndOldLine f)
                (lineRangeEndNewLine f)) as (He1 & He2 & He3 & He4).
    eexists (buildLineRange f), _, _.
    split; [done|]. split; [reflexivity|]. split; [reflexivity|].
    by repeat split.
Qed.

(** *** The endpoint of a discussion note *)

Lemma buildPosition_Ok f :
  (∀ n, oldLine f = Some n → 0 ≤ n) → ∃ pos, buildPosition f = Ok pos.
Proof.
  intros Hold. unfold buildPosition. destruct (oldLine f) as [n|]; [|eauto].
  specialize (Hold n eq_refl).
  rewrite (proj2 (Z.ltb_ge n 0) Hold). eauto.
Qed.

Lemma attachPosition_Ok f b :
  (locationComplete f → ∀ n, oldLine f = Some n → 0 ≤ n) →
  ∃ b', attachPosition f b = Ok b'.
Proof.
  intros Hold. unfold attachPosition.
  destruct (hasPosition f) eqn:Hhas; [|eauto].
  apply hasPosition_true in Hhas.
  destruct (buildPosition_Ok f (Hold Hhas)) as [pos ->]. simpl. eauto.
Qed.


(** *** The other operations *)




(** A [postDiscussionNote] whose position step and endpoint step pass does
    issue a request. *)
Lemma postDiscussionNote_issues p base k note :
  stringParams p !! "operation" = Some "postDiscussionNote" →
  resolveBase p = Ok base →
  numberParams p !! "mergeRequestIid" = Some (Some k) →
  0 < k →
  stringParams p !! "body" = Some note →
  (locationComplete (positionFields p) →
   ∀ n, oldLine (positionFields p) = Some n → 0 ≤ n) →
  (booleanField p "startDiscussion" = true ∨
   ∃ d, stringParams p !! "discussionId" = Some d ∧ d ≠ "") →
  ∃ r, handleMergeRequest p = Ok r.
Proof.
  intros Hop Hbase Hiid Hk Hnote Hold Hwhere.
  rewrite (postDiscussionNote_run p base k note) by done.
  destruct (attachPosition_Ok (positionFields p) (noteBody p note) Hold)
    as [b ->].
  rewrite bind_Ok. unfold discussionEndpoint.
  destruct (booleanField p "startDiscussion"); [simpl; eauto|].
  destruct Hwhere as [? | (d & Hid & Hd%nonEmpty_true)]; [done|].
  rewrite (getNodeParameter_set _ _ _ _ Hid), bind_Ok, Hd. simpl. eauto.
Qed.

(** *** Operations and resources that the dispatch does not know *)

(** Turns [x ∉ [a; b; ...]] into [x === a = false], [x === b = false], ...
    and rewrites the goal with them. *)
Ltac eqb_not_in H :=
  repeat (let Hne := fresh "Hne" in
          apply not_elem_of_cons in H as [Hne%String.eqb_neq H];
          rewrite ?Hne).

(** The merge-request handler rejects an operation it does not know. *)
Lemma handleMergeRequest_unsupported p base operation :
  stringParams p !! "operation" = Some operation →
  resolveBase p = Ok base →
  operation ∉ mergeRequestOperations →
  handleMergeRequest p =
    Throw (NodeOperationError (unsupportedMessage operation)).
Proof.
  intros Hop Hbase Hnot. unfold handleMergeRequest.
  rewrite (getNodeParameter_set _ _ _ _ Hop), bind_Ok, Hbase, bind_Ok.
  unfold dispatchMergeRequest, mergeRequestOperations in *.
  eqb_not_in Hnot. reflexivity.
Qed.

(** The item loop rejects a resource it does not know. *)
Lemma executeItem_unknown_resource p base resource operation :
  resolveBase p = Ok base →
  resource ∉ resources →
  executeItem resource operation p =
    ([], Some (NodeOperationError (unknownResourceMessage resource))).
Proof.
  intros Hbase Hnot. unfold executeItem. rewrite Hbase.
  unfold resources in Hnot. eqb_not_in Hnot. reflexivity.
Qed.

(** What the handler and the resource dispatch reject is rejected as an
    unsupported operation, before any request. *)
Lemma unsupported_rejected p base resource operation0 operation :
  resolveBase p = Ok base →
  resource ∉ resources ∨
  (resource = "mergeRequest" ∧
   stringParams p !! "operation" = Some operation ∧
   operation ∉ mergeRequestOperations) →
  ∃ e, executeItem resource operation0 p = ([], Some e) ∧
       UnsupportedOperation e.
Proof.
  intros Hbase [Hnot | (-> & Hop & Hnot)].
  - rewrite (executeItem_unknown_resource p base) by done.
    eexists. split; [done|]. exists resource. by right.
  - unfold executeItem. rewrite Hbase.
    rewrite (handleMergeRequest_unsupported p base operation) by done.
    eexists. split; [reflexivity|]. exists operation. by left.
Qed.

(** Under every resource that [execute] handles inline, an operation that it
    does not test for goes through to the request call with the initial
    request. *)
Lemma inline_unknown_operation p base resource operation known :
  resolveBase p = Ok base →
  inlineOperations resource = Some known →
  operation ∉ known →
  executeItem resource operation p = ([initialRequest], None).
Proof.
  intros Hbase Hknown Hnot. unfold executeItem. rewrite Hbase.
  unfold inlineOperations in Hknown.
  repeat match type of Hknown with
  | (if String.eqb resource ?name then _ else _) = _ =>
      destruct (String.eqb_spec resource name) as [-> | _];
        [ injection Hknown as <-;
          first [ change (issue (tag operation p base)
                          = ([initialRequest], None)); unfold tag
                | change (issue (release operation p base)
                          = ([initialRequest], None)); unfold release
                | change (issue (group operation p)
                          = ([initialRequest], None)); unfold group
                | change (issue (project operation p)
                          = ([initialRequest], None)); unfold project
                | change (issue (issue_ operation p base)
                          = ([initialRequest], None)); unfold issue_
                | change (issue (raw operation p)
                          = ([initialRequest], None)); unfold raw ];
          unfold tagOperations in Hnot; eqb_not_in Hnot; reflexivity
        | ]
  end.
  discriminate.
Qed.

(** C9, where the code departs from it. Under the resource [tag], an
    operation that [execute] does not test for raises no error: the item
    goes on to the request call, with the initial method GET and the empty
    endpoint. *)
Theorem C9_tag_unknown_operation_issues_request p base operation :
  resolveBase p = Ok base →
  operation ∉ tagOperations →
  executeItem "tag" operation p = ([initialRequest], None).
Proof.
  intros Hbase Hnot. unfold executeItem. rewrite Hbase.
  change (issue (tag operation p base) = ([initialRequest], None)).
  unfold tag, tagOperations in *. eqb_not_in Hnot. reflexivity.
Qed.

End Properties.

(** ** The tests of the repository, replayed on the embedding *)

Example test_merge :
  @handleMergeRequest testHost mergeSquash =
    Ok {| requestMethod := "PUT";
          endpoint := "/projects/1/merge_requests/10/merge";
          body := {[ "merge_commit_message" := JStr "done";
                     "squash" := JBool true ]};
          qs := ∅; returnAll := false |}.
Proof. vm_compute. reflexivity. Qed.

Example test_postDiscussionNote_with_position :
  @handleMergeRequest testHost noteWithPosition = Ok noteWithPositionRequest.
Proof. vm_compute. reflexivity. Qed.

Example test_postDiscussionNote_without_lines :
  @handleMergeRequest testHost noteWithoutLines = Ok noteWithoutLinesRequest.
Proof. vm_compute. reflexivity. Qed.

Example test_postDiscussionNote_line_range :
  @handleMergeRequest testHost noteWithLineRange
    = Ok noteWithLineRangeRequest.
Proof. vm_compute. reflexivity. Qed.

(** Not among the tests: the lines of a range are not validated, and a
    zero [oldLine] is left out where a zero [newLine] is kept. *)
Example postDiscussionNote_negative_range :
  @handleMergeRequest testHost noteWithNegativeRange =
    Ok {| requestMethod := "POST";
          endpoint := "/projects/1/merge_requests/14/discussions";
          body :=
            {[ "body" := JStr "multi";
               "position" :=
                 JObj {[ "position_type" := JStr "text";
                         "new_path" := JStr "a.ts";
                         "old_path" := JStr "a.ts";
                         "new_line" := JNum 0;
                         "base_sha" := JStr "111";
                         "head_sha" := JStr "222";
                         "start_sha" := JStr "333";
                         "line_range" :=
                           JObj {[ "start" :=
                                     JObj {[ "line_code" := JStr "code1";
                                             "type" := JStr "new";
                                             "old_line" := JNum (-5) ]};
                                   "end" :=
                                     JObj {[ "line_code" := JStr "code2";
                                             "type" := JStr "old";
                                             "new_line" := JNum (-7) ]} ]} ]} ]};
          qs := ∅; returnAll := false |}.
Proof. vm_compute. reflexivity. Qed.

Example test_postDiscussionNote_negative_oldLine :
  @handleMergeRequest testHost noteWithNegativeOldLine =
    Throw (NodeOperationError oldLineMessage).
Proof. vm_compute. reflexivity. Qed.

Example test_postDiscussionNote_without_discussionId :
  @handleMergeRequest testHost noteWithoutDiscussionId =
    Throw (NodeOperationError
      "Discussion ID must be provided when replying to a discussion.").
Proof. vm_compute. reflexivity. Qed.

Example test_updateDiscussionNote_resolve :
  @handleMergeRequest testHost resolveNote =
    Ok {| requestMethod := "PUT";
          endpoint := "/projects/1/merge_requests/30/discussions/d9/notes/14";
          body := {[ "resolved" := JBool true ]};
          qs := ∅; returnAll := false |}.
Proof. vm_compute. reflexivity. Qed.

Example test_updateDiscussionNote_body_and_resolved :
  @handleMergeRequest testHost resolveNoteWithBody =
    Throw (NodeOperationError "body and resolved are mutually exclusive").
Proof. vm_compute. reflexivity. Qed.

Example test_labels_add :
  @handleMergeRequest testHost labelsAdd =
    Ok {| requestMethod := "PUT";
          endpoint := "/projects/1/merge_requests/21";
          body := {[ "add_labels" := JStr "bug,urgent" ]};
          qs := ∅; returnAll := false |}.
Proof. vm_compute. reflexivity. Qed.

Example test_labels_remove :
  @handleMergeRequest testHost labelsRemove =
    Ok {| requestMethod := "PUT";
          endpoint := "/projects/1/merge_requests/22";
          body := {[ "remove_labels" := JStr "bug,urgent" ]};
          qs := ∅; returnAll := false |}.
Proof. vm_compute. reflexivity. Qed.

(** The whole of [execute] on one tag item with an unknown operation: one
    request, no error. *)
Example execute_tag_unknown_operation :
  @execute testHost (λ _, tagWithUnknownOperation) 1 =
    ([ {| requestMethod := "GET"; endpoint := ""; body := ∅; qs := ∅;
          returnAll := false |} ], None).
Proof. vm_compute. reflexivity. Qed.

(** ** The theorems at the inputs of the tests *)

(** C1 at 'postDiscussionNote builds note with position'. *)
Lemma C1_witness :
  stringParams noteWithPosition !! "operation" = Some "postDiscussionNote" ∧
  @handleMergeRequest testHost noteWithPosition = Ok noteWithPositionRequest ∧
  is_Some (body noteWithPositionRequest !! "position") ∧
  locationComplete (positionFields noteWithPosition).
Proof.
  assert (stringParams noteWithPosition !! "operation"
          = Some "postDiscussionNote") as Hop by reflexivity.
  assert (@handleMergeRequest testHost noteWithPosition
          = Ok noteWithPositionRequest) as Hrun by (vm_compute; reflexivity).
  split; [exact Hop|]. split; [exact Hrun|].
  destruct (@C1_position_iff_location_complete testHost
              noteWithPosition noteWithPositionRequest Hop Hrun)
    as [Hiff _].
  assert (is_Some (body noteWithPositionRequest !! "position")) as Hpos
    by (eexists; reflexivity).
  split; [exact Hpos | exact (proj1 Hiff Hpos)].
Defined.




(** C5 as the specification words it fails at 'postDiscussionNote allows
    omitting line numbers': the position that the test expects has
    [position_type] next to the five location keys. *)
Lemma C5_counterexample :
  @handleMergeRequest testHost noteWithoutLines = Ok noteWithoutLinesRequest ∧
  locationComplete (positionFields noteWithoutLines) ∧
  body noteWithoutLinesRequest !! "position"
    = Some (JObj noteWithoutLinesPosition) ∧
  "position_type" ∈ dom noteWithoutLinesPosition ∧
  dom noteWithoutLinesPosition
    ≠ specPositionKeys (positionFields noteWithoutLines).
Proof.
  assert ("position_type" ∈ dom noteWithoutLinesPosition) as Hin.
  { apply elem_of_dom. eexists. reflexivity. }
  split; [vm_compute; reflexivity|].
  split; [repeat split; discriminate|].
  split; [reflexivity|]. split; [exact Hin|].
  intros Heq. rewrite Heq in Hin. revert Hin.
  unfold specPositionKeys. cbn [positionFields newLine oldLine].
  unfold numberField. simpl. set_solver.
Qed.

(** C5, amended, at the same input. *)
Lemma C5_witness :
  stringParams noteWithoutLines !! "operation" = Some "postDiscussionNote" ∧
  @handleMergeRequest testHost noteWithoutLines = Ok noteWithoutLinesRequest ∧
  locationComplete (positionFields noteWithoutLines) ∧
  ∃ pos, body noteWithoutLinesRequest !! "position" = Some (JObj pos) ∧
    ∀ key, key ∈ dom pos ↔
      key ∈ ["position_type"; "new_path"; "old_path"; "base_sha";
             "head_sha"; "start_sha"] ∨
      (key = "new_line" ∧
       ∃ n, numberParams noteWithoutLines !! "newLine" = Some (Some n)) ∨
      (key = "old_line" ∧
       ∃ n, numberParams noteWithoutLines !! "oldLine" = Some (Some n) ∧
            n ≠ 0) ∨
      (key = "line_range" ∧
       lineRangeComplete (positionFields noteWithoutLines)).
Proof.
  assert (stringParams noteWithoutLines !! "operation"
          = Some "postDiscussionNote") as Hop by reflexivity.
  assert (@handleMergeRequest testHost noteWithoutLines
          = Ok noteWithoutLinesRequest) as Hrun by (vm_compute; reflexivity).
  assert (locationComplete (positionFields noteWithoutLines))
    as Hloc by (repeat split; discriminate).
  split; [exact Hop|]. split; [exact Hrun|]. split; [exact Hloc|].
  exact (@C5_position_keys testHost noteWithoutLines
           noteWithoutLinesRequest Hop Hrun Hloc).
Defined.

(** C6 at 'postDiscussionNote includes line range for multiline note'. *)
Lemma C6_witness :
  stringParams noteWithLineRange !! "operation"
    = Some "postDiscussionNote" ∧
  @handleMergeRequest testHost noteWithLineRange
    = Ok noteWithLineRangeRequest ∧
  locationComplete (positionFields noteWithLineRange) ∧
  lineRangeComplete (positionFields noteWithLineRange) ∧
  ∃ pos range start end_,
    body noteWithLineRangeRequest !! "position" = Some (JObj pos) ∧
    pos !! "line_range" = Some (JObj range) ∧
    range !! "start" = Some (JObj start) ∧
    range !! "end" = Some (JObj end_) ∧
    start !! "line_code" = Some (JStr "code1") ∧
    start !! "type" = Some (JStr "new") ∧
    start !! "old_line" = Some (JNum 5) ∧
    start !! "new_line" = None ∧
    end_ !! "line_code" = Some (JStr "code2") ∧
    end_ !! "type" = Some (JStr "old") ∧
    end_ !! "old_line" = None ∧
    end_ !! "new_line" = Some (JNum 7).
Proof.
  assert (stringParams noteWithLineRange !! "operation"
          = Some "postDiscussionNote") as Hop by reflexivity.
  assert (@handleMergeRequest testHost noteWithLineRange
          = Ok noteWithLineRangeRequest) as Hrun by (vm_compute; reflexivity).
  assert (locationComplete (positionFields noteWithLineRange))
    as Hloc by (repeat split; discriminate).
  assert (lineRangeComplete (positionFields noteWithLineRange))
    as Hrange by (repeat split; discriminate).
  split; [exact Hop|]. split; [exact Hrun|]. split; [exact Hloc|].
  split; [exact Hrange|].
  destruct (@C6_line_range testHost noteWithLineRange
              noteWithLineRangeRequest Hop Hrun Hloc)
    as (pos & Hpos & _ & Hsides).
  destruct (Hsides Hrange) as (range & start & end_ & H).
  exists pos, range, start, end_. split; [exact Hpos | exact H].
Defined.



(** C9 at a tag item with the operation "rename". *)
Lemma C9_witness :
  @resolveBase testHost tagWithUnknownOperation = Ok "/projects/1" ∧
  ("rename" ∉ tagOperations) ∧
  @executeItem testHost "tag" "rename" tagWithUnknownOperation =
    ([initialRequest], None).
Proof.
  assert ("rename" ∉ tagOperations) as Hnot.
  { unfold tagOperations. rewrite !not_elem_of_cons.
    repeat split; try discriminate. apply not_elem_of_nil. }
  split; [reflexivity|]. split; [exact Hnot|].
  exact (@C9_tag_unknown_operation_issues_request testHost
           tagWithUnknownOperation "/projects/1" "rename" eq_refl Hnot).
Defined.

(** C10 at a note with a complete location and no [positionType]. *)
Lemma C10_witness :
  stringParams noteWithDefaultType !! "operation"
    = Some "postDiscussionNote" ∧
  @handleMergeRequest testHost noteWithDefaultType
    = Ok noteWithDefaultTypeRequest ∧
  locationComplete (positionFields noteWithDefaultType) ∧
  stringParams noteWithDefaultType !! "positionType" = None ∧
  ∃ pos, body noteWithDefaultTypeRequest !! "position" = Some (JObj pos) ∧
         pos !! "position_type" = Some (JStr "text").
Proof.
  assert (stringParams noteWithDefaultType !! "operation"
          = Some "postDiscussionNote") as Hop by reflexivity.
  assert (@handleMergeRequest testHost noteWithDefaultType
          = Ok noteWithDefaultTypeRequest)
    as Hrun by (vm_compute; reflexivity).
  assert (locationComplete (positionFields noteWithDefaultType))
    as Hloc by (repeat split; discriminate).
  split; [exact Hop|]. split; [exact Hrun|]. split; [exact Hloc|].
  split; [reflexivity|].
  destruct (@C10_position_type_default testHost noteWithDefaultType
              noteWithDefaultTypeRequest Hop Hrun Hloc)
    as (pos & Hpos & _ & _ & Habsent).
  exists pos. split; [exact Hpos | exact (Habsent eq_refl)].
Defined.

(** ** The handler as a whole *)

Section Handler.
Context {host : Host}.

(** Takes apart [H : run = Ok r], one bind at a time: the reads that
    succeeded become hypotheses on the parameters, the checks that passed
    become bounds, and [r] becomes the record that the branch builds. *)
Ltac invert_step H :=
  match type of H with
  | Ok _ = Ok _ => injection H as H; try subst
  | Throw _ = Ok _ => discriminate H
  | getNodeParameter _ _ None = Ok _ => apply getNodeParameter_Ok_inv in H
  | getNodeParameter ?t ?n (Some ?d) = Ok _ =>
      rewrite (getNodeParameter_default t n d) in H;
      injection H as H; try subst
  | requirePositive _ _ = Ok _ =>
      let k := fresh "k" in
      apply requirePositive_Ok_inv in H as (k & -> & H)
  | (if ?c then _ else _) = Ok _ =>
      let E := fresh "E" in destruct c eqn:E; invert_step H
  | (_ ≫= _) = Ok _ =>
      let a := fresh "a" in
      let Ha := fresh "Ha" in
      apply bind_Ok_inv in H as (a & Ha & H);
      cbv beta zeta in H; invert_step Ha; invert_step H
  | _ => idtac
  end.

Ltac invert_run H := cbv beta zeta in H; invert_step H.

(** A request of the handler comes from an operation, a project base and a
    branch of the dispatch. *)
Lemma handleMergeRequest_Ok_inv p r :
  handleMergeRequest p = Ok r →
  ∃ operation base,
    stringParams p !! "operation" = Some operation ∧
    resolveBase p = Ok base ∧
    dispatchMergeRequest operation p base = Ok r.
Proof.
  unfold handleMergeRequest.
  intros (operation & Hop%getNodeParameter_Ok_inv & Hrun)%bind_Ok_inv.
  apply bind_Ok_inv in Hrun as (base & Hbase & Hrun). eauto.
Qed.

Lemma append_empty_r s : s +:+ "" = s.
Proof.
  induction s as [|c s IH]; [done|].
  change (String c (s +:+ "") = String c s). by rewrite IH.
Qed.

Lemma startsWith_refl s : startsWith s s.
Proof. exists "". by rewrite append_empty_r. Qed.

Lemma startsWith_append s rest : startsWith s (s +:+ rest).
Proof. by exists rest. Qed.

Lemma startsWith_merge_requests base rest :
  startsWith (base +:+ "/merge_requests")
    (base +:+ "/merge_requests/" +:+ rest).
Proof. exists ("/" +:+ rest). by rewrite append_assoc. Qed.

(** Splits the dispatch into its branches; [tac] closes each. *)
Ltac by_operation operation H tac :=
  unfold dispatchMergeRequest in H;
  repeat match type of H with
  | (if ?c then _ else _) = Ok _ =>
      let E := fresh "Eop" in
      destruct c eqn:E; [tac | ]
  end;
  try discriminate H.

(** X1. Every request that the handler issues goes to the merge requests of
    the resolved project: its endpoint starts with {base}/merge_requests. *)
Theorem endpoint_under_merge_requests p r :
  handleMergeRequest p = Ok r →
  ∃ base, resolveBase p = Ok base ∧
          startsWith (base +:+ "/merge_requests") (endpoint r).
Proof.
  intros (operation & base & _ & Hbase & Hrun)%handleMergeRequest_Ok_inv.
  exists base. split; [done|].
  by_operation operation Hrun
    ltac:(unfold create, get, getAll, createNote, postDiscussionNote,
            updateNote, updateDiscussionNote, getChanges, getDiscussions,
            discussionRequest, updateDiscussion, noteRequest,
            deleteDiscussionNote, merge, rebase, closeOrReopen, labels,
            discussionEndpoint in Hrun;
          invert_run Hrun; cbn [endpoint];
          first [ apply startsWith_merge_requests | apply startsWith_refl ]).
Qed.


(** The operation that the branch at hand was entered for. *)
Ltac the_operation :=
  match goal with
  | E : String.eqb _ _ = true |- _ => apply String.eqb_eq in E; subst
  | E : String.eqb _ _ || String.eqb _ _ = true |- _ =>
      apply orb_true_iff in E as [E | E]; apply String.eqb_eq in E; subst
  end.

(** Closes a goal with a hypothesis [x ∈ [a; b; ...]] that no element of
    the list satisfies. *)
Ltac not_member :=
  solve [ match goal with
          | Hin : _ ∈ _ |- _ =>
              rewrite ?elem_of_cons, elem_of_nil in Hin;
              repeat (destruct Hin as [Hin | Hin]; [discriminate Hin|]);
              first [discriminate Hin | destruct Hin]
          end ].

Ltac unfold_branches H :=
  unfold create, get, getAll, createNote, postDiscussionNote, updateNote,
    updateDiscussionNote, getChanges, getDiscussions, discussionRequest,
    updateDiscussion, noteRequest, deleteDiscussionNote, merge, rebase,
    closeOrReopen, labels, discussionEndpoint in H.


(** X3. The handler only issues GET, POST, PUT and DELETE requests, and its
    GET and DELETE requests have an empty body. *)
Theorem methods_and_bodies p r :
  handleMergeRequest p = Ok r →
  requestMethod r ∈ ["GET"; "POST"; "PUT"; "DELETE"] ∧
  (requestMethod r ∈ ["GET"; "DELETE"] → body r = ∅).
Proof.
  intros (operation & base & _ & _ & Hrun)%handleMergeRequest_Ok_inv.
  by_operation operation Hrun
    ltac:(unfold_branches Hrun; invert_run Hrun; cbn [requestMethod body];
          (split;
           [ repeat constructor
           | intros Hin; first [reflexivity | not_member] ])).
Qed.

(** X4. Only [getAll], [getDiscussions], [getChanges] and [rebase] ever send
    a query string, and only [getAll] and [getDiscussions] ever ask for all
    pages. *)
Theorem queries_and_pagination p r operation :
  stringParams p !! "operation" = Some operation →
  handleMergeRequest p = Ok r →
  (qs r ≠ ∅ →
   operation ∈ ["getAll"; "getDiscussions"; "getChanges"; "rebase"]) ∧
  (returnAll r = true → operation ∈ ["getAll"; "getDiscussions"]).
Proof.
  intros Hop (operation' & base & Hop' & Hbase & Hrun)
    %handleMergeRequest_Ok_inv.
  assert (operation' = operation) as -> by congruence. clear Hop'.
  by_operation operation Hrun
    ltac:(unfold_branches Hrun; invert_run Hrun; cbn [qs returnAll];
          (split;
           [ intros Hqs; first [ by destruct Hqs
                               | the_operation; repeat constructor ]
           | intros Hall; first [ discriminate Hall
                                | the_operation; repeat constructor ] ])).
Qed.




(** *** Single operations *)

(** The branch that issued a request, when the operation is known. *)
Lemma dispatch_of p r operation :
  stringParams p !! "operation" = Some operation →
  handleMergeRequest p = Ok r →
  ∃ base, resolveBase p = Ok base ∧
          dispatchMergeRequest operation p base = Ok r.
Proof.
  intros Hop (operation' & base & Hop' & Hbase & Hrun)
    %handleMergeRequest_Ok_inv.
  assert (operation' = operation) as -> by congruence. eauto.
Qed.

(** The query of a list request, lines 48-49 and 216-217. *)
Lemma per_page_query p (all : bool) (q : IDataObject) :
  (if negb all
   then limit ← getNodeParameter (numberParams p) "limit" None;
        Ok (<["per_page" := jsNumber limit]> (∅ : IDataObject))
   else Ok ∅) = Ok q →
  (all = true → q = ∅) ∧
  (all = false →
   ∃ limit, numberParams p !! "limit" = Some limit ∧
            q = {[ "per_page" := jsNumber limit ]}).
Proof.
  destruct all; cbn [negb].
  - intros [= <-]. by split.
  - intros (limit & Hlimit%getNodeParameter_Ok_inv & [= <-])%bind_Ok_inv.
    split; [done|]. intros _. by exists limit.
Qed.

(** X6. [getAll] and [getDiscussions] need [returnAll] to be set. With
    [returnAll] true they ask the executor for all pages and send no
    [per_page]; with [returnAll] false they send [per_page] = [limit] and
    nothing else in the query. *)
Theorem pagination p r operation :
  stringParams p !! "operation" = Some operation →
  operation ∈ ["getAll"; "getDiscussions"] →
  handleMergeRequest p = Ok r →
  ∃ all, booleanParams p !! "returnAll" = Some all ∧
    returnAll r = all ∧
    (all = true → qs r = ∅) ∧
    (all = false →
     ∃ limit, numberParams p !! "limit" = Some limit ∧
              qs r = {[ "per_page" := jsNumber limit ]}).
Proof.
  intros Hop Hin Hrun.
  destruct (dispatch_of p r _ Hop Hrun) as (base & _ & Hrun'). clear Hrun.
  rename Hrun' into Hrun.
  rewrite !elem_of_cons, elem_of_nil in Hin.
  destruct Hin as [-> | [-> | []]].
  - change (getAll p base = Ok r) in Hrun. unfold getAll in Hrun.
    apply bind_Ok_inv
      in Hrun as (all & Hall%getNodeParameter_Ok_inv & Hrun).
    apply bind_Ok_inv in Hrun as (q & Hq%per_page_query & [= <-]).
    exists all. by split.
  - change (getDiscussions p base = Ok r) in Hrun.
    unfold getDiscussions in Hrun.
    apply bind_Ok_inv in Hrun as (iid & _ & Hrun).
    apply bind_Ok_inv in Hrun as (u & _ & Hrun).
    apply bind_Ok_inv
      in Hrun as (all & Hall%getNodeParameter_Ok_inv & Hrun).
    apply bind_Ok_inv in Hrun as (q & Hq%per_page_query & [= <-]).
    exists all. by split.
Qed.

(** X7. [getChanges] sends [access_raw_diffs] and [unidiff] in the query
    exactly when the matching flag is true, always with the value true, and
    sends nothing else in the query and no body. *)
Theorem getChanges_flags p r :
  stringParams p !! "operation" = Some "getChanges" →
  handleMergeRequest p = Ok r →
  qs r !! "access_raw_diffs" =
    (if booleanField p "accessRawDiffs" then Some (JBool true) else None) ∧
  qs r !! "unidiff" =
    (if booleanField p "unidiff" then Some (JBool true) else None) ∧
  (∀ key, key ≠ "access_raw_diffs" → key ≠ "unidiff" →
          qs r !! key = None) ∧
  body r = ∅.
Proof.
  intros Hop Hrun.
  destruct (dispatch_of p r _ Hop Hrun) as (base & _ & Hrun'). clear Hrun.
  rename Hrun' into Hrun.
  change (getChanges p base = Ok r) in Hrun. unfold getChanges in Hrun.
  invert_run Hrun. cbn [qs body]. unfold booleanField, setIf.
  destruct (default false (booleanParams p !! "accessRawDiffs")),
    (default false (booleanParams p !! "unidiff"));
    repeat split; try reflexivity; intros key Hraw Huni;
    by rewrite ?lookup_insert_ne.
Qed.

(** X8. [rebase] sends [skip_ci: true] in the query exactly when [skipCi] is
    true, nothing else in the query, and no body. *)
Theorem rebase_skip_ci p r :
  stringParams p !! "operation" = Some "rebase" →
  handleMergeRequest p = Ok r →
  requestMethod r = "PUT" ∧
  body r = ∅ ∧
  (booleanField p "skipCi" = true → qs r = {[ "skip_ci" := JBool true ]}) ∧
  (booleanField p "skipCi" = false → qs r = ∅).
Proof.
  intros Hop Hrun.
  destruct (dispatch_of p r _ Hop Hrun) as (base & _ & Hrun'). clear Hrun.
  rename Hrun' into Hrun.
  change (rebase p base = Ok r) in Hrun. unfold rebase in Hrun.
  invert_run Hrun. cbn [qs body requestMethod]. unfold booleanField, setIf.
  by destruct (default false (booleanParams p !! "skipCi")).
Qed.

(** X9. [updateDiscussion] and [resolveDiscussion] send an empty body for
    the selector "none", {resolved: true} for "true", and {resolved: false}
    for every other selector, "false" or not. *)
Theorem updateDiscussion_resolved p r operation :
  stringParams p !! "operation" = Some operation →
  operation ∈ ["updateDiscussion"; "resolveDiscussion"] →
  handleMergeRequest p = Ok r →
  let choice := stringField p "resolved" "none" in
  requestMethod r = "PUT" ∧
  (choice = "none" → body r = ∅) ∧
  (choice = "true" → body r = {[ "resolved" := JBool true ]}) ∧
  (choice ≠ "none" → choice ≠ "true" →
   body r = {[ "resolved" := JBool false ]}).
Proof.
  intros Hop Hin Hrun0 choice.
  destruct (dispatch_of p r _ Hop Hrun0) as (base & _ & Hrun).
  assert (updateDiscussion p base = Ok r) as Hrun'.
  { rewrite !elem_of_cons, elem_of_nil in Hin.
    by destruct Hin as [-> | [-> | []]]. }
  clear Hrun. unfold updateDiscussion in Hrun'. invert_run Hrun'.
  cbn [requestMethod body]. fold (stringField p "resolved" "none").
  fold choice. split; [done|]. unfold setIf. repeat split.
  - by intros ->.
  - by intros ->.
  - intros Hnone%String.eqb_neq Htrue%String.eqb_neq.
    by rewrite Hnone, Htrue.
Qed.


(** X11. [updateDiscussionNote] with no body text and a selector that is
    none of "none", "true" and "false" sends {resolved: null}. *)
Theorem updateDiscussionNote_other_selector p r :
  stringParams p !! "operation" = Some "updateDiscussionNote" →
  handleMergeRequest p = Ok r →
  stringField p "body" "" = "" →
  stringField p "resolved" "none" ∉ ["none"; "true"; "false"] →
  body r = {[ "resolved" := JNull ]}.
Proof.
  intros Hop Hrun0 Hbody Hchoice.
  destruct (dispatch_of p r _ Hop Hrun0) as (base & _ & Hrun).
  change (updateDiscussionNote p base = Ok r) in Hrun.
  unfold updateDiscussionNote in Hrun. invert_run Hrun. cbn [body].
  fold (stringField p "body" "") (stringField p "resolved" "none").
  rewrite Hbody.
  apply not_elem_of_cons in Hchoice as [Hnone%String.eqb_neq Hchoice].
  apply not_elem_of_cons in Hchoice as [Htrue%String.eqb_neq Hchoice].
  apply not_elem_of_cons in Hchoice as [Hfalse%String.eqb_neq _].
  by rewrite Hnone, Htrue, Hfalse.
Qed.

(** *** More on [postDiscussionNote] *)

Lemma noteBody_lookup p note :
  noteBody p note !! "body" = Some (JStr note) ∧
  noteBody p note !! "commit_id" =
    (if nonEmpty (stringField p "commitId" "")
     then Some (JStr (stringField p "commitId" "")) else None) ∧
  noteBody p note !! "created_at" =
    (if nonEmpty (stringField p "createdAt" "")
     then Some (JStr (stringField p "createdAt" "")) else None) ∧
  ∀ key, is_Some (noteBody p note !! key) →
         key ∈ ["body"; "commit_id"; "created_at"].
Proof.
  unfold noteBody, setIf.
  destruct (nonEmpty (stringField p "createdAt" "")),
    (nonEmpty (stringField p "commitId" ""));
    (split; [reflexivity|]; split; [reflexivity|]; split; [reflexivity|]);
    intros key [v Hkey]; rewrite !elem_of_cons;
    repeat match type of Hkey with
    | <[?k := _]> _ !! ?x = Some _ =>
        destruct (decide (k = x)) as [<- | ?];
          [by auto | rewrite lookup_insert_ne in Hkey by done]
    end; by rewrite lookup_empty in Hkey.
Qed.

(** X12. The body of a [postDiscussionNote] request always has the note
    text as [body]; it has [commit_id] and [created_at] exactly when
    [commitId] and [createdAt] are non-empty, with their values; and it has
    no key other than these three and [position]. *)
Theorem postDiscussionNote_body p r :
  stringParams p !! "operation" = Some "postDiscussionNote" →
  handleMergeRequest p = Ok r →
  let commitId := stringField p "commitId" "" in
  let createdAt := stringField p "createdAt" "" in
  (∃ note, stringParams p !! "body" = Some note ∧
           body r !! "body" = Some (JStr note)) ∧
  (commitId ≠ "" → body r !! "commit_id" = Some (JStr commitId)) ∧
  (commitId = "" → body r !! "commit_id" = None) ∧
  (createdAt ≠ "" → body r !! "created_at" = Some (JStr createdAt)) ∧
  (createdAt = "" → body r !! "created_at" = None) ∧
  (∀ key, is_Some (body r !! key) →
          key ∈ ["body"; "commit_id"; "created_at"; "position"]).
Proof.
  intros Hop Hrun commitId createdAt.
  destruct (postDiscussionNote_Ok_inv p r Hop Hrun)
    as (base & k & note & _ & _ & _ & Hnote & Hatt & _).
  destruct (noteBody_lookup p note) as (Hb & Hc & Ht & Hkeys).
  fold commitId in Hc. fold createdAt in Ht.
  assert (∀ key, key ≠ "position" →
                 body r !! key = noteBody p note !! key) as Hsame.
  { intros key Hkey.
    apply attachPosition_Ok_inv
      in Hatt as [[_ ->] | (pos & _ & _ & ->)]; [done|].
    by rewrite lookup_insert_ne. }
  rewrite !Hsame by done. rewrite Hb, Hc, Ht.
  split; [by exists note|].
  split; [by intros ->%nonEmpty_true|].
  split; [by intros ->%nonEmpty_false|].
  split; [by intros ->%nonEmpty_true|].
  split; [by intros ->%nonEmpty_false|].
  intros key Hkey. destruct (decide (key = "position")) as [-> | Hne].
  - repeat constructor.
  - rewrite Hsame in Hkey by done. apply Hkeys in Hkey.
    rewrite !elem_of_cons in *. tauto.
Qed.


(** X14. A reply ([startDiscussion] false or not set) whose [discussionId]
    parameter is not set at all fails on the read of the parameter, not
    with the message about the discussion id. *)
Theorem reply_without_discussionId_parameter p base k note :
  stringParams p !! "operation" = Some "postDiscussionNote" →
  resolveBase p = Ok base →
  numberParams p !! "mergeRequestIid" = Some (Some k) →
  0 < k →
  stringParams p !! "body" = Some note →
  (locationComplete (positionFields p) →
   ∀ n, oldLine (positionFields p) = Some n → 0 ≤ n) →
  booleanField p "startDiscussion" = false →
  stringParams p !! "discussionId" = None →
  handleMergeRequest p =
    Throw (GenericError "Could not get parameter discussionId").
Proof.
  intros Hop Hbase Hiid Hk Hnote Hold Hstart Hid.
  rewrite (postDiscussionNote_run p base k note) by done.
  destruct (attachPosition_Ok (positionFields p) (noteBody p note) Hold)
    as [b ->].
  rewrite bind_Ok, Hstart. unfold discussionEndpoint, getNodeParameter.
  by rewrite Hid.
Qed.


(** X16. When [startDiscussion] is true, [postDiscussionNote] does not look
    at [discussionId]: changing, adding or removing that parameter changes
    neither the request nor the error. *)
Theorem new_discussion_ignores_discussionId p p' :
  sameBut "discussionId" p p' →
  resolveBase p' = resolveBase p →
  stringParams p !! "operation" = Some "postDiscussionNote" →
  booleanParams p !! "startDiscussion" = Some true →
  handleMergeRequest p' = handleMergeRequest p.
Proof.
  intros (Hs & Hn & Hb & _) Hbase Hop Hstart.
  assert (stringParams p' !! "operation" = Some "postDiscussionNote")
    as Hop' by (by rewrite Hs).
  unfold handleMergeRequest.
  rewrite (getNodeParameter_set _ _ _ _ Hop), bind_Ok.
  rewrite (getNodeParameter_set _ _ _ _ Hop'), bind_Ok.
  rewrite Hbase. destruct (resolveBase p) as [base|e]; [|done].
  rewrite !bind_Ok.
  change (postDiscussionNote p' base = postDiscussionNote p base).
  unfold postDiscussionNote, discussionEndpoint. rewrite Hn, Hb.
  rewrite (getNodeParameter_set _ _ (Some false) _ Hstart).
  cbn [mbind Result_bind].
  unfold getNodeParameter. rewrite !Hs by discriminate. reflexivity.
Qed.

End Handler.

(** ** The item loop *)

Section Loop.
Context {host : Host}.

Lemma executeLoop_app resource operation ctx l1 l2 :
  executeLoop resource operation ctx (l1 ++ l2) =
    match executeLoop resource operation ctx l1 with
    | (requests, Some e) => (requests, Some e)
    | (requests, None) =>
        let '(later, e) := executeLoop resource operation ctx l2 in
        (requests ++ later, e)
    end.
Proof.
  induction l1 as [|i l1 IH]; simpl.
  - by destruct (executeLoop resource operation ctx l2).
  - destruct (executeItem resource operation (ctx i)) as [requests [e|]];
      [done|].
    rewrite IH.
    destruct (executeLoop resource operation ctx l1) as [requests1 [e|]];
      [done|].
    destruct (executeLoop resource operation ctx l2) as [later e].
    by rewrite app_assoc.
Qed.

Lemma execute_started ctx resource operation items :
  started ctx resource operation →
  execute ctx items = executeLoop resource operation ctx (seq 0 items).
Proof.
  intros (Hop & Hres & base & Hbase). unfold execute.
  by rewrite (getNodeParameter_set _ _ _ _ Hop),
    (getNodeParameter_set _ _ _ _ Hres), Hbase.
Qed.

(** X17. With no input item [execute] issues nothing and raises nothing,
    whatever the resource and the operation are, known or not: they are
    only looked at inside the loop. *)
Theorem execute_no_items ctx resource operation :
  started ctx resource operation →
  execute ctx 0 = ([], None).
Proof. intros Hstart. by rewrite (execute_started _ _ _ _ Hstart). Qed.

(** X18. [execute] stops at the first item that throws: the requests of the
    items before it have been issued, in order, then those of the failing
    item, and no later item is processed. *)
Theorem execute_stops_at_first_error
    ctx resource operation items j before failing e :
  started ctx resource operation →
  (j < items)%nat →
  executeLoop resource operation ctx (seq 0 j) = (before, None) →
  executeItem resource operation (ctx j) = (failing, Some e) →
  execute ctx items = (before ++ failing, Some e).
Proof.
  intros Hstart Hj Hbefore Hfail.
  rewrite (execute_started _ _ _ _ Hstart).
  replace items with (j + S (items - S j))%nat by lia.
  rewrite seq_app, executeLoop_app, Hbefore. simpl. by rewrite Hfail.
Qed.




(** X20. Creating a release with an empty [tagName] fails with "tagName must
    not be empty" before anything else is read, and issues no request. *)
Theorem release_create_needs_tag p base :
  resolveBase p = Ok base →
  stringParams p !! "tagName" = Some "" →
  executeItem "release" "create" p =
    ([], Some (NodeOperationError "tagName must not be empty")).
Proof.
  intros Hbase Htag. unfold executeItem. rewrite Hbase.
  change (issue (release "create" p base) =
          ([], Some (NodeOperationError "tagName must not be empty"))).
  unfold release.
  change (String.eqb "create" "create") with true. cbv iota.
  by rewrite (getNodeParameter_set _ _ _ _ Htag).
Qed.

(** X21. Creating a group posts to /groups, whatever the project base is,
    with [name] and [path], and with [parent_id] exactly when [parentId] is
    a number other than 0. *)
Theorem group_create p base name path :
  resolveBase p = Ok base →
  stringParams p !! "groupName" = Some name →
  stringParams p !! "groupPath" = Some path →
  ∃ r, executeItem "group" "create" p = ([r], None) ∧
    requestMethod r = "POST" ∧ endpoint r = "/groups" ∧
    body r !! "name" = Some (JStr name) ∧
    body r !! "path" = Some (JStr path) ∧
    (∀ parent, numberParams p !! "parentId" = Some (Some parent) →
               parent ≠ 0 → body r !! "parent_id" = Some (JNum parent)) ∧
    (numberParams p !! "parentId" = Some (Some 0) ∨
     numberParams p !! "parentId" = Some None ∨
     numberParams p !! "parentId" = None →
     body r !! "parent_id" = None).
Proof.
  intros Hbase Hname Hpath. unfold executeItem. rewrite Hbase.
  change (∃ r, issue (group "create" p) = ([r], None) ∧
    requestMethod r = "POST" ∧ endpoint r = "/groups" ∧
    body r !! "name" = Some (JStr name) ∧
    body r !! "path" = Some (JStr path) ∧
    (∀ parent, numberParams p !! "parentId" = Some (Some parent) →
               parent ≠ 0 → body r !! "parent_id" = Some (JNum parent)) ∧
    (numberParams p !! "parentId" = Some (Some 0) ∨
     numberParams p !! "parentId" = Some None ∨
     numberParams p !! "parentId" = None →
     body r !! "parent_id" = None)).
  unfold group. change (String.eqb "create" "create") with true. cbv iota.
  rewrite (getNodeParameter_set _ _ _ _ Hname), bind_Ok.
  rewrite (getNodeParameter_set _ _ _ _ Hpath), bind_Ok.
  rewrite getNodeParameter_default, bind_Ok. cbv zeta.
  eexists. split; [reflexivity|]. cbn [requestMethod endpoint body].
  split; [done|]. split; [done|]. unfold setIf, truthyNumber.
  destruct (numberParams p !! "parentId") as [[parent|]|] eqn:Hparent;
    simpl; [destruct (parent =? 0) eqn:Hzero|..]; simpl;
    (split; [reflexivity|]); (split; [reflexivity|]); split;
    try (intros ? [= <-] ?); try (intros [[=]|[[=]|[=]]]);
    try reflexivity; try discriminate; try lia.
Qed.

End Loop.

(** ** The constructor *)

Lemma decorateDescription_prefix prop :
  startsWith (default "" (description prop)) (decorateDescription prop).
Proof.
  unfold decorateDescription.
  destruct (negb (isRequired prop)), (hasDefault (defaultValue prop));
    cbv zeta; rewrite ?append_assoc;
    first [ apply startsWith_append | apply startsWith_refl ].
Qed.

(** X22. The constructor keeps the properties in number and order, with
    their names, [required] flags and defaults, and only ever extends a
    description: the old text (or the empty text, when there was none) is
    the start of the new one. *)
Theorem constructor_extends_descriptions properties i prop :
  properties !! i = Some prop →
  length (constructor properties) = length properties ∧
  ∃ prop', constructor properties !! i = Some prop' ∧
    propertyName prop' = propertyName prop ∧
    required prop' = required prop ∧
    defaultValue prop' = defaultValue prop ∧
    ∃ text, description prop' = Some text ∧
            startsWith (default "" (description prop)) text.
Proof.
  intros Hi. unfold constructor. split; [apply length_fmap|].
  rewrite list_lookup_fmap, Hi. simpl. eexists. split; [reflexivity|].
  simpl. repeat split. eexists. split; [reflexivity|].
  apply decorateDescription_prefix.
Qed.

(** X23. What the constructor appends: nothing for a required property
    whose default is missing, null or ''; for a property that is not
    required, a note that ends in "Optional)" when the default is missing,
    null or '', and in ", default: {default})" otherwise, which covers the
    defaults 0 and false; and when such a property has no description, the
    new description starts with "Optional", with no opening parenthesis. *)
Theorem constructor_notes prop :
  (isRequired prop = true → hasDefault (defaultValue prop) = false →
   decorateDescription prop = default "" (description prop)) ∧
  (isRequired prop = false → hasDefault (defaultValue prop) = false →
   endsWith "Optional)" (decorateDescription prop)) ∧
  (isRequired prop = false → hasDefault (defaultValue prop) = true →
   endsWith (", default: " +:+ defaultToString (defaultValue prop) +:+ ")")
     (decorateDescription prop)) ∧
  (isRequired prop = false → default "" (description prop) = "" →
   startsWith "Optional" (decorateDescription prop)).
Proof.
  unfold decorateDescription. repeat split.
  - by intros -> ->.
  - intros -> ->. cbn [negb].
    destruct (nonEmpty (default "" (description prop))).
    + exists (default "" (description prop) +:+ " (").
      by rewrite !append_assoc.
    + exists (default "" (description prop)). by rewrite !append_assoc.
  - intros -> ->. cbn [negb].
    exists (default "" (description prop) +:+
            (if nonEmpty (default "" (description prop))
             then " (Optional" else "Optional")).
    by rewrite !append_assoc.
  - intros -> ->. cbn [negb]. change (nonEmpty "") with false. cbv iota.
    destruct (hasDefault (defaultValue prop)); eexists; reflexivity.
Qed.

(** ** The further theorems at the inputs of the tests *)

Lemma endpoint_under_merge_requests_witness :
  @handleMergeRequest testHost getOne = Ok getOneRequest ∧
  ∃ base, @resolveBase testHost getOne = Ok base ∧
          startsWith (base +:+ "/merge_requests") (endpoint getOneRequest).
Proof.
  assert (@handleMergeRequest testHost getOne = Ok getOneRequest) as Hrun
    by (vm_compute; reflexivity).
  split; [exact Hrun|].
  exact (@endpoint_under_merge_requests testHost getOne getOneRequest Hrun).
Defined.


Lemma methods_and_bodies_witness :
  @handleMergeRequest testHost getOne = Ok getOneRequest ∧
  requestMethod getOneRequest ∈ ["GET"; "POST"; "PUT"; "DELETE"] ∧
  (requestMethod getOneRequest ∈ ["GET"; "DELETE"] →
   body getOneRequest = ∅).
Proof.
  assert (@handleMergeRequest testHost getOne = Ok getOneRequest) as Hrun
    by (vm_compute; reflexivity).
  split; [exact Hrun|].
  exact (@methods_and_bodies testHost getOne getOneRequest Hrun).
Defined.

Lemma queries_and_pagination_witness :
  stringParams getAllLimited !! "operation" = Some "getAll" ∧
  @handleMergeRequest testHost getAllLimited = Ok getAllLimitedRequest ∧
  qs getAllLimitedRequest ≠ ∅ ∧
  "getAll" ∈ ["getAll"; "getDiscussions"; "getChanges"; "rebase"].
Proof.
  assert (@handleMergeRequest testHost getAllLimited
          = Ok getAllLimitedRequest) as Hrun by (vm_compute; reflexivity).
  assert (qs getAllLimitedRequest ≠ ∅) as Hqs.
  { intros Heq. apply (f_equal (λ m : IDataObject, m !! "per_page")) in Heq.
    discriminate Heq. }
  split; [reflexivity|]. split; [exact Hrun|]. split; [exact Hqs|].
  exact (proj1 (@queries_and_pagination testHost getAllLimited
                  getAllLimitedRequest "getAll" eq_refl Hrun) Hqs).
Defined.


Lemma pagination_witness :
  stringParams getAllLimited !! "operation" = Some "getAll" ∧
  "getAll" ∈ ["getAll"; "getDiscussions"] ∧
  @handleMergeRequest testHost getAllLimited = Ok getAllLimitedRequest ∧
  ∃ all, booleanParams getAllLimited !! "returnAll" = Some all ∧
    returnAll getAllLimitedRequest = all ∧
    (all = true → qs getAllLimitedRequest = ∅) ∧
    (all = false →
     ∃ limit, numberParams getAllLimited !! "limit" = Some limit ∧
              qs getAllLimitedRequest = {[ "per_page" := jsNumber limit ]}).
Proof.
  assert ("getAll" ∈ ["getAll"; "getDiscussions"]) as Hin
    by repeat constructor.
  assert (@handleMergeRequest testHost getAllLimited
          = Ok getAllLimitedRequest) as Hrun by (vm_compute; reflexivity).
  split; [reflexivity|]. split; [exact Hin|]. split; [exact Hrun|].
  exact (@pagination testHost getAllLimited getAllLimitedRequest "getAll"
           eq_refl Hin Hrun).
Defined.

Lemma getChanges_flags_witness :
  stringParams getChangesRaw !! "operation" = Some "getChanges" ∧
  @handleMergeRequest testHost getChangesRaw = Ok getChangesRawRequest ∧
  qs getChangesRawRequest !! "access_raw_diffs" = Some (JBool true) ∧
  qs getChangesRawRequest !! "unidiff" = Some (JBool true) ∧
  (∀ key, key ≠ "access_raw_diffs" → key ≠ "unidiff" →
          qs getChangesRawRequest !! key = None) ∧
  body getChangesRawRequest = ∅.
Proof.
  assert (@handleMergeRequest testHost getChangesRaw
          = Ok getChangesRawRequest) as Hrun by (vm_compute; reflexivity).
  split; [reflexivity|]. split; [exact Hrun|].
  exact (@getChanges_flags testHost getChangesRaw getChangesRawRequest
           eq_refl Hrun).
Defined.

Lemma rebase_skip_ci_witness :
  stringParams rebaseSkipCi !! "operation" = Some "rebase" ∧
  @handleMergeRequest testHost rebaseSkipCi = Ok rebaseSkipCiRequest ∧
  booleanField rebaseSkipCi "skipCi" = true ∧
  qs rebaseSkipCiRequest = {[ "skip_ci" := JBool true ]}.
Proof.
  assert (@handleMergeRequest testHost rebaseSkipCi
          = Ok rebaseSkipCiRequest) as Hrun by (vm_compute; reflexivity).
  split; [reflexivity|]. split; [exact Hrun|]. split; [reflexivity|].
  exact (proj1 (proj2 (proj2 (@rebase_skip_ci testHost rebaseSkipCi
                                rebaseSkipCiRequest eq_refl Hrun)))
           eq_refl).
Defined.

Lemma updateDiscussion_resolved_witness :
  stringParams unresolveDiscussion !! "operation"
    = Some "resolveDiscussion" ∧
  "resolveDiscussion" ∈ ["updateDiscussion"; "resolveDiscussion"] ∧
  @handleMergeRequest testHost unresolveDiscussion
    = Ok unresolveDiscussionRequest ∧
  stringField unresolveDiscussion "resolved" "none" ≠ "none" ∧
  stringField unresolveDiscussion "resolved" "none" ≠ "true" ∧
  body unresolveDiscussionRequest = {[ "resolved" := JBool false ]}.
Proof.
  assert ("resolveDiscussion" ∈ ["updateDiscussion"; "resolveDiscussion"])
    as Hin by repeat constructor.
  assert (@handleMergeRequest testHost unresolveDiscussion
          = Ok unresolveDiscussionRequest)
    as Hrun by (vm_compute; reflexivity).
  assert (stringField unresolveDiscussion "resolved" "none" ≠ "none")
    as Hnone by discriminate.
  assert (stringField unresolveDiscussion "resolved" "none" ≠ "true")
    as Htrue by discriminate.
  split; [reflexivity|]. split; [exact Hin|]. split; [exact Hrun|].
  split; [exact Hnone|]. split; [exact Htrue|].
  exact (proj2 (proj2 (proj2
           (@updateDiscussion_resolved testHost unresolveDiscussion
              unresolveDiscussionRequest "resolveDiscussion"
              eq_refl Hin Hrun))) Hnone Htrue).
Defined.


Lemma updateDiscussionNote_other_selector_witness :
  stringParams resolveNoteOddly !! "operation"
    = Some "updateDiscussionNote" ∧
  @handleMergeRequest testHost resolveNoteOddly
    = Ok resolveNoteOddlyRequest ∧
  stringField resolveNoteOddly "body" "" = "" ∧
  (stringField resolveNoteOddly "resolved" "none"
     ∉ ["none"; "true"; "false"]) ∧
  body resolveNoteOddlyRequest = {[ "resolved" := JNull ]}.
Proof.
  assert (@handleMergeRequest testHost resolveNoteOddly
          = Ok resolveNoteOddlyRequest) as Hrun by (vm_compute; reflexivity).
  assert (stringField resolveNoteOddly "resolved" "none"
          ∉ ["none"; "true"; "false"]) as Hodd.
  { rewrite !not_elem_of_cons. repeat split; try discriminate.
    apply not_elem_of_nil. }
  split; [reflexivity|]. split; [exact Hrun|]. split; [reflexivity|].
  split; [exact Hodd|].
  exact (@updateDiscussionNote_other_selector testHost resolveNoteOddly
           resolveNoteOddlyRequest eq_refl Hrun eq_refl Hodd).
Defined.

Lemma postDiscussionNote_body_witness :
  stringParams noteWithMeta !! "operation" = Some "postDiscussionNote" ∧
  @handleMergeRequest testHost noteWithMeta = Ok noteWithMetaRequest ∧
  stringField noteWithMeta "commitId" "" ≠ "" ∧
  body noteWithMetaRequest !! "commit_id" = Some (JStr "abc123").
Proof.
  assert (@handleMergeRequest testHost noteWithMeta = Ok noteWithMetaRequest)
    as Hrun by (vm_compute; reflexivity).
  assert (stringField noteWithMeta "commitId" "" ≠ "") as Hid
    by discriminate.
  split; [reflexivity|]. split; [exact Hrun|]. split; [exact Hid|].
  exact (proj1 (proj2 (@postDiscussionNote_body testHost noteWithMeta
                         noteWithMetaRequest eq_refl Hrun)) Hid).
Defined.


Lemma reply_without_discussionId_parameter_witness :
  stringParams replyWithoutParameter !! "operation"
    = Some "postDiscussionNote" ∧
  @resolveBase testHost replyWithoutParameter = Ok "/projects/1" ∧
  numberParams replyWithoutParameter !! "mergeRequestIid"
    = Some (Some 23) ∧
  0 < 23 ∧
  stringParams replyWithoutParameter !! "body" = Some "hi" ∧
  (locationComplete (positionFields replyWithoutParameter) →
   ∀ n, oldLine (positionFields replyWithoutParameter) = Some n → 0 ≤ n) ∧
  booleanField replyWithoutParameter "startDiscussion" = false ∧
  stringParams replyWithoutParameter !! "discussionId" = None ∧
  @handleMergeRequest testHost replyWithoutParameter =
    Throw (GenericError "Could not get parameter discussionId").
Proof.
  assert (locationComplete (positionFields replyWithoutParameter) →
          ∀ n, oldLine (positionFields replyWithoutParameter) = Some n →
               0 ≤ n) as Hold by (intros _ n; discriminate).
  repeat (split; [first [reflexivity | assumption]|]).
  exact (@reply_without_discussionId_parameter testHost
           replyWithoutParameter "/projects/1" 23 "hi"
           eq_refl eq_refl eq_refl eq_refl eq_refl Hold eq_refl eq_refl).
Defined.


Lemma new_discussion_ignores_discussionId_witness :
  sameBut "discussionId" noteWithMeta noteWithMetaAndId ∧
  @resolveBase testHost noteWithMetaAndId
    = @resolveBase testHost noteWithMeta ∧
  stringParams noteWithMeta !! "operation" = Some "postDiscussionNote" ∧
  booleanParams noteWithMeta !! "startDiscussion" = Some true ∧
  stringParams noteWithMetaAndId !! "discussionId" = Some "d7" ∧
  stringParams noteWithMeta !! "discussionId" = None ∧
  @handleMergeRequest testHost noteWithMetaAndId
    = @handleMergeRequest testHost noteWithMeta.
Proof.
  assert (sameBut "discussionId" noteWithMeta noteWithMetaAndId) as Hsame.
  { split; [|by repeat split]. intros other Hother.
    by apply lookup_insert_ne. }
  split; [exact Hsame|]. repeat (split; [reflexivity|]).
  exact (@new_discussion_ignores_discussionId testHost noteWithMeta
           noteWithMetaAndId Hsame eq_refl eq_refl eq_refl).
Defined.

Lemma execute_no_items_witness :
  @started testHost (λ _, tagWithUnknownOperation) "tag" "rename" ∧
  @execute testHost (λ _, tagWithUnknownOperation) 0 = ([], None).
Proof.
  assert (@started testHost (λ _, tagWithUnknownOperation) "tag" "rename")
    as Hstart by (repeat split; by exists "/projects/1").
  split; [exact Hstart|].
  exact (@execute_no_items testHost (λ _, tagWithUnknownOperation)
           "tag" "rename" Hstart).
Defined.

Lemma execute_stops_at_first_error_witness :
  @started testHost mixedItems "mergeRequest" "get" ∧
  (1 < 3)%nat ∧
  @executeLoop testHost "mergeRequest" "get" mixedItems (seq 0 1)
    = ([getOneRequest], None) ∧
  @executeItem testHost "mergeRequest" "get" (mixedItems 1)
    = ([], Some (NodeOperationError oldLineMessage)) ∧
  @execute testHost mixedItems 3 =
    ([getOneRequest] ++ [], Some (NodeOperationError oldLineMessage)).
Proof.
  assert (@started testHost mixedItems "mergeRequest" "get")
    as Hstart by (repeat split; by exists "/projects/1").
  assert (@executeLoop testHost "mergeRequest" "get" mixedItems (seq 0 1)
          = ([getOneRequest], None)) as Hbefore by (vm_compute; reflexivity).
  assert (@executeItem testHost "mergeRequest" "get" (mixedItems 1)
          = ([], Some (NodeOperationError oldLineMessage)))
    as Hfail by (vm_compute; reflexivity).
  split; [exact Hstart|]. split; [lia|]. split; [exact Hbefore|].
  split; [exact Hfail|].
  exact (@execute_stops_at_first_error testHost mixedItems "mergeRequest"
           "get" 3 1 _ _ _ Hstart ltac:(lia) Hbefore Hfail).
Defined.


Lemma release_create_needs_tag_witness :
  @resolveBase testHost releaseWithoutTag = Ok "/projects/1" ∧
  stringParams releaseWithoutTag !! "tagName" = Some "" ∧
  @executeItem testHost "release" "create" releaseWithoutTag =
    ([], Some (NodeOperationError "tagName must not be empty")).
Proof.
  repeat (split; [reflexivity|]).
  exact (@release_create_needs_tag testHost releaseWithoutTag "/projects/1"
           eq_refl eq_refl).
Defined.

Lemma group_create_witness :
  @resolveBase testHost groupUnderParent = Ok "/projects/1" ∧
  stringParams groupUnderParent !! "groupName" = Some "team" ∧
  stringParams groupUnderParent !! "groupPath" = Some "team" ∧
  numberParams groupUnderParent !! "parentId" = Some (Some 5) ∧
  5 ≠ 0 ∧
  ∃ r, @executeItem testHost "group" "create" groupUnderParent
         = ([r], None) ∧
       endpoint r = "/groups" ∧
       body r !! "parent_id" = Some (JNum 5).
Proof.
  repeat (split; [first [reflexivity | discriminate]|]).
  destruct (@group_create testHost groupUnderParent "/projects/1" "team"
              "team" eq_refl eq_refl eq_refl)
    as (r & Hrun & _ & Hend & _ & _ & Hparent & _).
  exists r. split; [exact Hrun|]. split; [exact Hend|].
  exact (Hparent 5 eq_refl ltac:(discriminate)).
Defined.

Lemma constructor_extends_descriptions_witness :
  [newLineProperty; discussionIdProperty; startDiscussionProperty] !! 0%nat
    = Some newLineProperty ∧
  length (constructor [newLineProperty; discussionIdProperty;
                       startDiscussionProperty]) = 3%nat ∧
  ∃ prop',
    constructor [newLineProperty; discussionIdProperty;
                 startDiscussionProperty] !! 0%nat = Some prop' ∧
    propertyName prop' = "newLine" ∧
    required prop' = None ∧
    defaultValue prop' = DNull ∧
    ∃ text, description prop' = Some text ∧
            startsWith "Line number in the new file" text.
Proof.
  split; [reflexivity|].
  exact (constructor_extends_descriptions
           [newLineProperty; discussionIdProperty; startDiscussionProperty]
           0 newLineProperty eq_refl).
Defined.

Lemma constructor_notes_witness :
  isRequired startDiscussionProperty = false ∧
  hasDefault (defaultValue startDiscussionProperty) = true ∧
  endsWith ", default: false)" (decorateDescription startDiscussionProperty).
Proof.
  split; [reflexivity|]. split; [reflexivity|].
  exact (proj1 (proj2 (proj2 (constructor_notes startDiscussionProperty)))
           eq_refl eq_refl).
Defined.

(** The three descriptions after the constructor. *)
Example constructor_on_three_properties :
  description <$>
    constructor [newLineProperty; discussionIdProperty;
                 startDiscussionProperty] =
  [ Some "Line number in the new file (Optional)";
    Some "Discussion ID to reply to or fetch, e.g. '123abc'";
    Some "Whether to start a new discussion instead of replying to an existing one (Optional, default: false)" ].
Proof. vm_compute. reflexivity. Qed.
